(** * School sport booking application: model and properties

    A shallow embedding of [app.py]: the timetable generator
    ([get_day_periods]), grade normalisation ([normalize_grade_input]), the
    SQLite tables with their constraints, the student and booking helpers,
    the web handlers that change the tables, the booking page, the
    availability check and the admin session.

    Conventions.
    - Text is ASCII: the [str] methods used by the program ([strip], [lower],
      [upper], [title], [isdigit], [int], the [\d] class of [re]) are
      modelled as they act on ASCII characters; a property that fails
      outside ASCII carries [Py.is_ascii] as a hypothesis.
    - Python's [int] is [Z]; [int] of a text and [str] of a number raise
      [ValueError] beyond 4300 digits, as CPython does by default. What
      reaches a table are period numbers, ids and counters, all within
      SQLite's INTEGER range ([sqlite_integer]); minutes of a day are [Z].
    - A table is the list of its rows in rowid order, next to the
      AUTOINCREMENT counter of the table; the [settings] table, whose key
      is its primary key, is a finite map.
    - The clock and the spreadsheet file are not part of the database: what
      the program reads from them is an explicit argument ([env]). *)

From Stdlib Require Import ZArith List Bool Ascii String Lia.
From stdpp Require Import base option list gmap strings pretty.

Open Scope string_scope.
Open Scope Z_scope.
Open Scope list_scope.

(** ** Fragments of the Python library used by the program *)

Module Py.

(** *** Characters *)

Definition code (c : ascii) : Z := Z.of_N (N_of_ascii c).
Definition chr (z : Z) : ascii := ascii_of_N (Z.to_N z).

Definition is_digit (c : ascii) : bool := (48 <=? code c) && (code c <=? 57).
Definition is_upper (c : ascii) : bool := (65 <=? code c) && (code c <=? 90).
Definition is_lower (c : ascii) : bool := (97 <=? code c) && (code c <=? 122).
Definition is_alpha (c : ascii) : bool := is_upper c || is_lower c.

(** [str.isspace] on the ASCII range: TAB, LF, VT, FF, CR, FS, GS, RS, US
    and the blank. *)
Definition is_space (c : ascii) : bool :=
  ((9 <=? code c) && (code c <=? 13)) ||
  ((28 <=? code c) && (code c <=? 32)).

Definition to_upper (c : ascii) : ascii :=
  if is_lower c then chr (code c - 32) else c.
Definition to_lower (c : ascii) : ascii :=
  if is_upper c then chr (code c + 32) else c.

Definition digit_val (c : ascii) : Z := code c - 48.
Definition digit_chr (z : Z) : ascii := chr (48 + z).

(** *** str methods *)

Fixpoint map_str (f : ascii -> ascii) (s : string) : string :=
  match s with
  | EmptyString => EmptyString
  | String c r => String (f c) (map_str f r)
  end.

Definition upper : string -> string := map_str to_upper.
Definition lower : string -> string := map_str to_lower.

Fixpoint lstrip (s : string) : string :=
  match s with
  | EmptyString => EmptyString
  | String c r => if is_space c then lstrip r else s
  end.

(** [rstrip] keeps a character when it is no blank or when something that is
    kept follows it. *)
Fixpoint rstrip (s : string) : string :=
  match s with
  | EmptyString => EmptyString
  | String c r =>
      match rstrip r with
      | EmptyString => if is_space c then EmptyString else String c EmptyString
      | r' => String c r'
      end
  end.

Definition strip (s : string) : string := rstrip (lstrip s).

(** [str.title]: a letter that follows a letter is lowered, any other letter
    is raised. *)
Fixpoint title_from (prev_cased : bool) (s : string) : string :=
  match s with
  | EmptyString => EmptyString
  | String c r =>
      String (if prev_cased then to_lower c else to_upper c)
             (title_from (is_alpha c) r)
  end.

Definition title : string -> string := title_from false.

Fixpoint starts_with (p s : string) : bool :=
  match p, s with
  | EmptyString, _ => true
  | String a p', String b s' => Ascii.eqb a b && starts_with p' s'
  | String _ _, EmptyString => false
  end.

(** [sub in s] *)
Fixpoint contains (sub s : string) : bool :=
  starts_with sub s ||
  match s with
  | EmptyString => false
  | String _ r => contains sub r
  end.

(** Truth value of a [str]. *)
Definition nonempty (s : string) : bool :=
  match s with EmptyString => false | _ => true end.

(** Truth value of an optional [str] ([None] and the empty text are false). *)
Definition truthy (o : option string) : bool :=
  match o with Some s => nonempty s | None => false end.

(** *** Numbers in text *)

Fixpoint all_digits (s : string) : bool :=
  match s with
  | EmptyString => true
  | String c r => is_digit c && all_digits r
  end.

Fixpoint digits_value (acc : Z) (s : string) : Z :=
  match s with
  | EmptyString => acc
  | String c r => digits_value (10 * acc + digit_val c) r
  end.

(** Body of a decimal literal: digits, with single underscores allowed
    between two digits. [after_digit] tells whether the previous character
    was a digit. *)
Fixpoint literal_body (after_digit : bool) (acc : Z) (s : string) : option Z :=
  match s with
  | EmptyString => if after_digit then Some acc else None
  | String c r =>
      if is_digit c then literal_body true (10 * acc + digit_val c) r
      else if Ascii.eqb c "_"%char && after_digit then
        match r with
        | String d _ => if is_digit d then literal_body false acc r else None
        | EmptyString => None
        end
      else None
  end.

(** The blanks that [int] skips around a literal: TAB, LF, VT, FF, CR and
    the space. The separators FS, GS, RS and US are blanks for [str.strip]
    and none for [int]. *)
Definition is_int_space (c : ascii) : bool :=
  ((9 <=? code c) && (code c <=? 13)) || (code c =? 32).

Fixpoint int_lstrip (s : string) : string :=
  match s with
  | EmptyString => EmptyString
  | String c r => if is_int_space c then int_lstrip r else s
  end.

Fixpoint int_rstrip (s : string) : string :=
  match s with
  | EmptyString => EmptyString
  | String c r =>
      match int_rstrip r with
      | EmptyString => if is_int_space c then EmptyString else String c EmptyString
      | r' => String c r'
      end
  end.

(** [sys.get_int_max_str_digits()]: a decimal text of more digits is refused
    by [int], and a number of more digits by [str], with [ValueError]. *)
Definition MAX_STR_DIGITS : Z := 4300.

(** The number of digits of a text (signs, blanks and underscores do not
    count, leading zeros do). *)
Fixpoint count_digits (s : string) : Z :=
  match s with
  | EmptyString => 0
  | String c r => (if is_digit c then 1 else 0) + count_digits r
  end.

(** [int(s)] for a text [s]: blanks around, an optional sign, a decimal
    literal of at most [MAX_STR_DIGITS] digits; [None] stands for
    [ValueError]. *)
Definition int (s : string) : option Z :=
  let t := int_rstrip (int_lstrip s) in
  if MAX_STR_DIGITS <? count_digits t then None
  else
    match t with
    | String "-"%char r => Z.opp <$> literal_body false 0 r
    | String "+"%char r => literal_body false 0 r
    | r => literal_body false 0 r
    end.

(** [str(z)] for an [int]: [None] stands for the [ValueError] of a number of
    more than [MAX_STR_DIGITS] digits. *)
Definition str (z : Z) : option string :=
  if MAX_STR_DIGITS <? count_digits (pretty z) then None else Some (pretty z).

(** [s.isascii()] *)
Fixpoint is_ascii (s : string) : bool :=
  match s with
  | EmptyString => true
  | String c r => (code c <? 128) && is_ascii r
  end.

(** [re.findall(r"\d{1,2}", s)]: leftmost matches, two digits when two are
    there. *)
Fixpoint findall_d12 (s : string) : list string :=
  match s with
  | EmptyString => []
  | String c r =>
      if is_digit c then
        match r with
        | String d r' =>
            if is_digit d
            then String c (String d EmptyString) :: findall_d12 r'
            else String c EmptyString :: findall_d12 r
        | EmptyString => [String c EmptyString]
        end
      else findall_d12 r
  end.

(** *** datetime *)

Record date := mk_date { year : Z; month : Z; day : Z }.

Definition is_leap (y : Z) : bool :=
  (y mod 4 =? 0) && (negb (y mod 100 =? 0) || (y mod 400 =? 0)).

Definition days_in_month (y m : Z) : Z :=
  if m =? 2 then (if is_leap y then 29 else 28)
  else if (m =? 4) || (m =? 6) || (m =? 9) || (m =? 11) then 30
  else 31.

Definition days_before_year (y : Z) : Z :=
  let y1 := y - 1 in
  y1 * 365 + y1 / 4 - y1 / 100 + y1 / 400.

Fixpoint days_before_month_from (y : Z) (m : nat) : Z :=
  match m with
  | O => 0
  | S k => days_before_month_from y k + days_in_month y (Z.of_nat (S k))
  end.

(** Days of year [y] before the first of month [m]. *)
Definition days_before_month (y m : Z) : Z :=
  days_before_month_from y (Z.to_nat (m - 1)).

(** [date.toordinal]: 0001-01-01 is day 1. *)
Definition toordinal (d : date) : Z :=
  days_before_year (year d) + days_before_month (year d) (month d) + day d.

(** [date.weekday]: Monday is 0, Sunday is 6. *)
Definition weekday (d : date) : Z := (toordinal d + 6) mod 7.

(** The dates that [datetime.date] can hold. *)
Definition valid_date (d : date) : bool :=
  (1 <=? year d) && (year d <=? 9999) &&
  (1 <=? month d) && (month d <=? 12) &&
  (1 <=? day d) && (day d <=? days_in_month (year d) (month d)).

(** A [datetime] at minute precision: the ordinal of its day and the minute
    of that day. *)
Record datetime := mk_datetime { dt_day : Z; dt_minute : Z }.

Definition combine (d : date) (minute_of_day : Z) : datetime :=
  mk_datetime (toordinal d) minute_of_day.

(** [dt + timedelta(minutes=m)] *)
Definition add_minutes (dt : datetime) (m : Z) : datetime :=
  let total := dt_minute dt + m in
  mk_datetime (dt_day dt + total / 1440) (total mod 1440).

Definition two_digits (n : Z) : string :=
  String (digit_chr (n / 10 mod 10)) (String (digit_chr (n mod 10)) EmptyString).

(** [dt.time().strftime("%H:%M")] *)
Definition strftime_HM (dt : datetime) : string :=
  String.append (two_digits (dt_minute dt / 60))
    (String ":"%char (two_digits (dt_minute dt mod 60))).

(** Minute of the day written by an ["HH:MM"] text. *)
Definition minutes_of_HM (s : string) : option Z :=
  match s with
  | String h1 (String h2 (String ":"%char (String m1 (String m2 EmptyString)))) =>
      if is_digit h1 && is_digit h2 && is_digit m1 && is_digit m2
      then Some ((10 * digit_val h1 + digit_val h2) * 60
                 + 10 * digit_val m1 + digit_val m2)
      else None
  | _ => None
  end.

(** [datetime.strptime(s, "%Y-%m-%d").date()]: four digits for the year, one
    or two for month and day (a day may also be a blank and a digit), nothing
    after them; [None] stands for [ValueError]. *)
Definition split_field (s : string) : option (string * string) :=
  match s with
  | String a (String b r) =>
      if is_digit a && is_digit b then Some (String a (String b EmptyString), r)
      else if is_digit a then Some (String a EmptyString, String b r)
      else None
  | String a EmptyString =>
      if is_digit a then Some (String a EmptyString, EmptyString) else None
  | EmptyString => None
  end.

Definition month_field (s : string) : option (Z * string) :=
  match split_field s with
  | Some (f, r) =>
      let v := digits_value 0 f in
      if (1 <=? v) && (v <=? 12) then Some (v, r)
      else
        (* two digits that are no month: the one-digit alternative *)
        match s with
        | String a r1 =>
            if (1 <=? digit_val a) && (digit_val a <=? 9)
            then Some (digit_val a, r1) else None
        | EmptyString => None
        end
  | None => None
  end.

Definition day_field (s : string) : option (Z * string) :=
  match s with
  | String " "%char (String b r) =>
      if (1 <=? digit_val b) && (digit_val b <=? 9) then Some (digit_val b, r)
      else None
  | _ =>
      match split_field s with
      | Some (f, r) =>
          let v := digits_value 0 f in
          if (1 <=? v) && (v <=? 31) then Some (v, r)
          else
            match s with
            | String a r1 =>
                if (1 <=? digit_val a) && (digit_val a <=? 9)
                then Some (digit_val a, r1) else None
            | EmptyString => None
            end
      | None => None
      end
  end.

Definition strptime_ymd (s : string) : option date :=
  match s with
  | String y1 (String y2 (String y3 (String y4 (String "-"%char r)))) =>
      let ys := String y1 (String y2 (String y3 (String y4 EmptyString))) in
      if all_digits ys then
        match month_field r with
        | Some (m, String "-"%char r2) =>
            match day_field r2 with
            | Some (d, EmptyString) =>
                let dt := mk_date (digits_value 0 ys) m d in
                if valid_date dt then Some dt else None
            | _ => None
            end
        | _ => None
        end
      else None
  | _ => None
  end.

End Py.

(** ** Timetable utilities *)

(** [normalize_grade_input]: [None] for an empty entry, ["Year 12"] or
    ["Year 13"] when the last number of one or two digits says so or the text
    contains 12 or 13, the entry stripped and in title case otherwise. This
    is the function on ASCII entries ([strip], [upper], [title] and [\d] as
    they act there). *)
Definition normalize_grade_input (raw : string) : option string :=
  if negb (Py.nonempty raw) then None
  else
    let s := Py.upper (Py.strip raw) in
    let digits := Py.findall_d12 s in
    let by_number :=
      match last digits with
      | Some dg =>
          let val := Py.digits_value 0 dg in
          if (val =? 11) || (val =? 12) then Some "Year 12"
          else if val =? 13 then Some "Year 13"
          else None
      | None => None
      end in
    match by_number with
    | Some g => Some g
    | None =>
        if Py.contains "12" s then Some "Year 12"
        else if Py.contains "13" s then Some "Year 13"
        else Some (Py.title (Py.strip raw))
    end.

(** A period while the list is built: number, start and end. *)
Record period_times := mk_times {
  t_period : Z;
  t_start : string;
  t_end : string
}.

(** A period as returned: the same with the [bookable] mark. *)
Record period_entry := mk_period {
  period : Z;
  start : string;
  end_ : string;
  bookable : bool
}.

(** One turn of the three loops: append a period that starts at [cur] and
    move [cur] to its end. *)
Definition append_period (period_length : Z)
    (st : list period_times * Py.datetime) : list period_times * Py.datetime :=
  let '(periods, cur) := st in
  let pstart := cur in
  let pend := Py.add_minutes pstart period_length in
  (periods ++ [mk_times (Z.of_nat (length periods) + 1)
                        (Py.strftime_HM pstart) (Py.strftime_HM pend)],
   pend).

Fixpoint repeat_append (n : nat) (period_length : Z)
    (st : list period_times * Py.datetime) : list period_times * Py.datetime :=
  match n with
  | O => st
  | S k => repeat_append k period_length (append_period period_length st)
  end.

Definition with_bookable (b : bool) (p : period_entry) : period_entry :=
  mk_period (period p) (start p) (end_ p) b.

(** [periods[i]['bookable'] = False] *)
Definition unmark (i : nat) (periods : list period_entry) : list period_entry :=
  alter (with_bookable false) i periods.

Definition get_day_periods (target_date : Py.date) : list period_entry :=
  let wd := Py.weekday target_date in
  if 3 <? wd then []
  else
    let '(period_length, total_periods) :=
      if (wd =? 0) || (wd =? 2) then (45, 8) else (40, 9) in
    let start_time := Py.combine target_date (7 * 60 + 30) in
    let st := ([], start_time) in
    (* first 4 *)
    let '(periods, cur) := repeat_append 4 period_length st in
    (* break 25 *)
    let cur := Py.add_minutes cur 25 in
    (* next 3 *)
    let '(periods, cur) := repeat_append 3 period_length (periods, cur) in
    (* break 15 *)
    let cur := Py.add_minutes cur 15 in
    let remaining := total_periods - Z.of_nat (length periods) in
    let '(periods, _) :=
      repeat_append (Z.to_nat remaining) period_length (periods, cur) in
    let periods :=
      fmap (fun p => mk_period (t_period p) (t_start p) (t_end p) true) periods in
    let periods :=
      match periods with
      | [] => periods
      | _ => unmark (length periods - 1) periods
      end in
    if (wd =? 3) && negb (bool_decide (periods = [])) then unmark 0 periods
    else periods.

(** ** Configuration *)

Definition ENFORCE_SCHOOL_EMAIL : bool := false.
Definition BLACKPOINTS_DEFAULT_THRESHOLD : Z := 3.

(** [re.match(SCHOOL_EMAIL_PREFIX, email)]: ["aaisp"], six digits,
    ["@alansarschool.net"], and at most a final line feed. *)
Definition school_email (email : string) : bool :=
  Py.starts_with "aaisp" email &&
  Py.all_digits (substring 5 6 email) &&
  (String.length (substring 5 6 email) =? 6)%nat &&
  let rest := substring 11 (String.length email) email in
  (String.eqb rest "@alansarschool.net" ||
   String.eqb rest (String.append "@alansarschool.net" (String (Py.chr 10) EmptyString))).

(** ** The database *)

(** A row of [students]. *)
Record student := mk_student {
  s_id : Z;
  s_name : string;
  s_email : option string;
  s_grade : option string;
  black_points : Z
}.

(** A row of [bookings]. The FOREIGN KEY on [leader_student_id] is declared
    but not enforced: the pragma is set on the connection of [init_db]
    only, and every helper opens a connection of its own. *)
Record booking := mk_booking {
  b_id : Z;
  booking_date : string;
  b_period : Z;
  sport : string;
  leader_student_id : Z;
  other_players : string;
  created_at : string
}.

(** The three tables. [students_seq] and [bookings_seq] are the
    AUTOINCREMENT counters: the largest id handed out so far. *)
Record db := mk_db {
  settings : gmap string string;
  students : list student;
  students_seq : Z;
  bookings : list booking;
  bookings_seq : Z
}.

Definition empty_db : db := mk_db ∅ [] 0 [] 0.

(** What a handler reads outside the database: the text of
    [datetime.utcnow().isoformat()], and whether [append_to_excel] raises
    ([Some msg], with [msg] the text of the exception) or returns. *)
Record env := mk_env {
  utcnow : string;
  excel_error : option string
}.

(** [init_db]: the tables are created when missing, and the default
    threshold is stored unless a threshold is there (INSERT OR IGNORE). *)
Definition init_db (s : db) : db :=
  match settings s !! "blackpoint_threshold" with
  | Some _ => s
  | None =>
      mk_db (<["blackpoint_threshold" := pretty BLACKPOINTS_DEFAULT_THRESHOLD]> (settings s))
            (students s) (students_seq s) (bookings s) (bookings_seq s)
  end.

Definition initial_db : db := init_db empty_db.

(** ** Student and booking helpers *)

Definition email_is (key : string) (r : student) : bool :=
  match s_email r with
  | Some e => String.eqb e key
  | None => false
  end.

Definition name_is (key : string) (r : student) : bool :=
  String.eqb (s_name r) key.

(** UPDATE students SET name = ?, grade = ? WHERE id = ? *)
Definition update_name_grade (name : string) (grade : option string) (sid : Z)
    (r : student) : student :=
  if s_id r =? sid
  then mk_student (s_id r) name (s_email r) grade (black_points r)
  else r.

Definition with_students (rows : list student) (seq : Z) (s : db) : db :=
  mk_db (settings s) rows seq (bookings s) (bookings_seq s).

Definition with_bookings (rows : list booking) (seq : Z) (s : db) : db :=
  mk_db (settings s) (students s) (students_seq s) rows seq.

(** The part of [find_or_create_student] after the search by email: search
    by name, and create the row when there is none. *)
Definition find_by_name_or_create (name : string) (email : option string)
    (grade : option string) (s : db) : db * Z :=
  match find (name_is (Py.strip name)) (students s) with
  | Some row => (s, s_id row)
  | None =>
      let sid := students_seq s + 1 in
      let stored_email :=
        match email with
        | Some e => if Py.nonempty e then Some (Py.lower (Py.strip e)) else None
        | None => None
        end in
      (with_students
         (students s ++ [mk_student sid (Py.strip name) stored_email grade 0])
         sid s,
       sid)
  end.

Definition find_or_create_student (name : string) (email : option string)
    (grade : option string) (s : db) : db * Z :=
  match email with
  | Some e =>
      if Py.nonempty e then
        match find (email_is (Py.lower (Py.strip e))) (students s) with
        | Some row =>
            (with_students
               (fmap (update_name_grade (Py.strip name) grade (s_id row)) (students s))
               (students_seq s) s,
             s_id row)
        | None => find_by_name_or_create name email grade s
        end
      else find_by_name_or_create name email grade s
  | None => find_by_name_or_create name email grade s
  end.

(** The rows of a slot. *)
Definition same_slot (date : string) (p : Z) (sp : string) (b : booking) : bool :=
  String.eqb (booking_date b) date && (b_period b =? p) && String.eqb (sport b) sp.

(** SELECT COUNT( * ) ... > 0 *)
Definition is_slot_taken (date : string) (p : Z) (sp : string) (s : db) : bool :=
  0 <? Z.of_nat (length (filter (fun b => same_slot date p sp b = true) (bookings s))).

(** UNIQUE(booking_date, period, sport): would the row break it? *)
Definition unique_violation (date : string) (p : Z) (sp : string)
    (rows : list booking) : bool :=
  existsb (same_slot date p sp) rows.

(** The integers that SQLite stores: binding a Python [int] outside this
    range raises [OverflowError] before the statement runs. *)
Definition sqlite_integer (z : Z) : bool :=
  (- 2 ^ 63 <=? z) && (z <? 2 ^ 63).

(** [create_booking]: the pair it returns is [(success, err)]. The INSERT
    raises [sqlite3.IntegrityError] when the slot has a row; after the commit
    the row is appended to the spreadsheet, and an exception there is caught
    by the last handler. The period and the leader are [sqlite_integer]s, as
    every caller in the program passes them (a period of the timetable, an
    id of the [students] table): the [OverflowError] of a larger number is
    not modelled. *)
Definition create_booking (e : env) (date : string) (p : Z) (sp : string)
    (leader_id : Z) (others : string) (s : db) : db * (bool * option string) :=
  let now := utcnow e in
  if unique_violation date p sp (bookings s) then (s, (false, Some "slot_taken"))
  else
    let bid := bookings_seq s + 1 in
    let s' :=
      with_bookings (bookings s ++ [mk_booking bid date p sp leader_id others now])
                    bid s in
    match excel_error e with
    | None => (s', (true, None))
    | Some msg => (s', (false, Some msg))
    end.

(** ** Settings helpers *)

Definition get_setting (key : string) (s : db) : option string :=
  settings s !! key.

(** INSERT OR REPLACE, with [str(value)]. When [str] raises, the statement
    is not reached and the table is as before. *)
Definition set_setting (key : string) (value : Z) (s : db) : db :=
  match Py.str value with
  | Some v =>
      mk_db (<[key := v]> (settings s))
            (students s) (students_seq s) (bookings s) (bookings_seq s)
  | None => s
  end.

(** ** Web endpoints *)

(** What a handler answers. [uncaught] is an exception that leaves the
    handler (the framework answers with an internal server error). *)
Inductive response :=
| render_fail (msg : string)
| render_success (msg : string)
| redirect (endpoint : string)
| uncaught (exc : string).

(** The fields of the booking form; [None] is a field that was not sent. *)
Record booking_form := mk_form {
  f_booking_date : option string;
  f_period : option string;
  f_sport : option string;
  f_name : option string;
  f_email : option string;
  f_grade : option string;
  f_others : option string
}.

(** [next((x for x in periods if x['period'] == int(period)), None)]:
    [int(period)] is evaluated once per entry that is looked at, so that an
    empty list gives [None] without it. The outer [None] is the [ValueError]
    of [int]. *)
Fixpoint find_period (periods : list period_entry) (period_field : string)
    : option (option period_entry) :=
  match periods with
  | [] => Some None
  | x :: rest =>
      match Py.int period_field with
      | None => None
      | Some n =>
          if period x =? n then Some (Some x) else find_period rest period_field
      end
  end.

(** [int(get_setting("blackpoint_threshold", BLACKPOINTS_DEFAULT_THRESHOLD))];
    [None] is the [ValueError] of [int]. *)
Definition blackpoint_threshold (s : db) : option Z :=
  match get_setting "blackpoint_threshold" s with
  | Some v => Py.int v
  | None => Some BLACKPOINTS_DEFAULT_THRESHOLD
  end.

(** SELECT black_points FROM students WHERE id = ?, and 0 without a row. *)
Definition leader_black_points (leader_id : Z) (s : db) : Z :=
  match find (fun r => s_id r =? leader_id) (students s) with
  | Some row => black_points row
  | None => 0
  end.

Definition MSG_SUPERVISOR : string :=
  "Booked successfully. You have been flagged: please see the supervisor in person.".
Definition MSG_BOOKED : string :=
  "Booked successfully. See you at the court!".
Definition MSG_NOT_BOOKABLE : string := "Selected period cannot be booked.".

Definition submit_booking (e : env) (f : booking_form) (s : db) : db * response :=
  let email := Py.lower (Py.strip (default "" (f_email f))) in
  let grade_raw := default "" (f_grade f) in
  let others := default "" (f_others f) in
  match f_booking_date f, f_period f, f_sport f, f_name f with
  | Some date, Some period_field, Some sp, Some name =>
      if negb (Py.nonempty date && Py.nonempty period_field
               && Py.nonempty sp && Py.nonempty name)
      then (s, render_fail "Missing required fields.")
      else
        match Py.strptime_ymd date with
        | None => (s, render_fail "Invalid date format.")
        | Some bdate =>
            let periods := get_day_periods bdate in
            match find_period periods period_field with
            | None => (s, uncaught "ValueError")
            | Some None => (s, render_fail MSG_NOT_BOOKABLE)
            | Some (Some p) =>
                if negb (bookable p) then (s, render_fail MSG_NOT_BOOKABLE)
                else if ENFORCE_SCHOOL_EMAIL && Py.nonempty email
                        && negb (school_email (Py.lower email))
                then (s, render_fail "Email not allowed; must be school email.")
                else
                  let grade := normalize_grade_input grade_raw in
                  let '(s1, leader_id) :=
                    find_or_create_student name (Some email) grade s in
                  match Py.int period_field with
                  | None => (s1, uncaught "ValueError")
                  | Some n =>
                      let '(s2, (success, err)) :=
                        create_booking e date n sp leader_id others s1 in
                      if success then
                        match blackpoint_threshold s2 with
                        | None => (s2, uncaught "ValueError")
                        | Some threshold =>
                            if threshold <=? leader_black_points leader_id s2
                            then (s2, render_success MSG_SUPERVISOR)
                            else (s2, render_success MSG_BOOKED)
                        end
                      else if bool_decide (err = Some "slot_taken")
                      then (s2, render_fail
                                  "Slot already taken. Try a different period or sport.")
                      else (s2, render_fail
                                  (String.append "Failed: " (default "None" err)))
                  end
            end
        end
  | _, _, _, _ => (s, render_fail "Missing required fields.")
  end.

(** *** Admin routes *)

(** [admin_required]: the view runs for a logged-in session, any other
    request is sent to the login page. *)
Definition admin_required (logged_in : bool) (view : db -> db * response)
    (s : db) : db * response :=
  if logged_in then view s else (s, redirect "admin_login").

(** DELETE FROM bookings WHERE id = ? *)
Definition admin_delete (logged_in : bool) (bid : Z) : db -> db * response :=
  admin_required logged_in (fun s =>
    (with_bookings (filter (fun b => b_id b ≠ bid) (bookings s)) (bookings_seq s) s,
     redirect "admin_dashboard")).

Definition add_black_point (student_id : Z) (r : student) : student :=
  if s_id r =? student_id
  then mk_student (s_id r) (s_name r) (s_email r) (s_grade r) (black_points r + 1)
  else r.

(** UPDATE students SET black_points = black_points + 1 WHERE id = ? *)
Definition admin_redflag (logged_in : bool) (student_id : Z) : db -> db * response :=
  admin_required logged_in (fun s =>
    (with_students (fmap (add_black_point student_id) (students s)) (students_seq s) s,
     redirect "admin_dashboard")).

(** [thr.isdigit()] on ASCII text: not empty, decimal digits only. *)
Definition isdigit (s : string) : bool := Py.nonempty s && Py.all_digits s.

Definition admin_settings (logged_in : bool) (thr : option string)
    : db -> db * response :=
  admin_required logged_in (fun s =>
    match thr with
    | Some t =>
        if Py.nonempty t && isdigit t then
          match Py.int t with
          | Some n => (set_setting "blackpoint_threshold" n s, redirect "admin_dashboard")
          | None => (s, uncaught "ValueError")
          end
        else (s, redirect "admin_dashboard")
    | None => (s, redirect "admin_dashboard")
    end).

(** ** Runs of the program *)

(** The operations that touch the database. *)
Inductive operation :=
| Submit_booking (e : env) (f : booking_form)
| Create_booking (e : env) (date : string) (p : Z) (sp : string)
                 (leader_id : Z) (others : string)
| Find_or_create_student (name : string) (email grade : option string)
| Admin_delete (logged_in : bool) (bid : Z)
| Admin_redflag (logged_in : bool) (student_id : Z)
| Admin_settings (logged_in : bool) (thr : option string)
| Set_setting (key : string) (value : Z).

Definition run (o : operation) (s : db) : db :=
  match o with
  | Submit_booking e f => fst (submit_booking e f s)
  | Create_booking e date p sp leader_id others =>
      fst (create_booking e date p sp leader_id others s)
  | Find_or_create_student name email grade =>
      fst (find_or_create_student name email grade s)
  | Admin_delete logged_in bid => fst (admin_delete logged_in bid s)
  | Admin_redflag logged_in student_id => fst (admin_redflag logged_in student_id s)
  | Admin_settings logged_in thr => fst (admin_settings logged_in thr s)
  | Set_setting key value => set_setting key value s
  end.

(** The states of the database: the fresh one and what operations make of a
    state. *)
Inductive reachable : db -> Prop :=
| reachable_init : reachable initial_db
| reachable_step s o : reachable s -> reachable (run o s).

(** Rows of a slot, and the properties of a table that the schema states. *)
Definition rows_of_slot (date : string) (p : Z) (sp : string) (s : db) : list booking :=
  filter (fun b => same_slot date p sp b = true) (bookings s).

Definition slot_of (b : booking) : string * Z * string :=
  (booking_date b, b_period b, sport b).

(** ** Notions used to state the properties *)

Definition start_minute (p : period_entry) : option Z := Py.minutes_of_HM (start p).
Definition end_minute (p : period_entry) : option Z := Py.minutes_of_HM (end_ p).

(** Length of a period in minutes, read back from its two texts. *)
Definition period_minutes (p : period_entry) : option Z :=
  match start_minute p, end_minute p with
  | Some a, Some b => Some (b - a)
  | _, _ => None
  end.

(** Minutes between the end of period [i] and the start of period [i + 1]
    (periods counted from 1). *)
Definition break_after (i : nat) (ps : list period_entry) : option Z :=
  match ps !! (i - 1)%nat, ps !! i with
  | Some p, Some q =>
      match end_minute p, start_minute q with
      | Some e, Some b => Some (b - e)
      | _, _ => None
      end
  | _, _ => None
  end.

(** The length of the periods of a school day. *)
Definition period_length_on (d : Py.date) : Z :=
  if (Py.weekday d =? 0) || (Py.weekday d =? 2) then 45 else 40.

Fixpoint run_all (ops : list operation) (s : db) : db :=
  match ops with
  | [] => s
  | o :: rest => run_all rest (run o s)
  end.


(** What the schema and the AUTOINCREMENT counters keep true of the tables:
    ids are unique and were handed out by the counter, and no two bookings
    share a slot. *)
Record db_ok (s : db) : Prop := mk_db_ok {
  student_ids_unique : NoDup (fmap s_id (students s));
  student_ids_issued : Forall (fun r => s_id r <= students_seq s) (students s);
  booking_ids_unique : NoDup (fmap b_id (bookings s));
  booking_ids_issued : Forall (fun b => b_id b <= bookings_seq s) (bookings s);
  slots_unique : NoDup (fmap slot_of (bookings s))
}.

(** The student row that a booking form resolves to: what
    [find_or_create_student] returns for its name, email and grade. *)
Definition leader_of (f : booking_form) (s : db) : Z :=
  snd (find_or_create_student
         (default "" (f_name f))
         (Some (Py.lower (Py.strip (default "" (f_email f)))))
         (normalize_grade_input (default "" (f_grade f))) s).

(** How one operation may change the [bookings] table. *)
Inductive bookings_change (s s' : db) : Prop :=
| bookings_kept :
    bookings s' = bookings s -> bookings_seq s' = bookings_seq s ->
    bookings_change s s'
| bookings_inserted row :
    bookings s' = bookings s ++ [row] ->
    unique_violation (booking_date row) (b_period row) (sport row) (bookings s) = false ->
    b_id row = bookings_seq s + 1 ->
    bookings_seq s' = bookings_seq s + 1 ->
    bookings_change s s'
| bookings_deleted bid :
    bookings s' = filter (fun b => b_id b ≠ bid) (bookings s) ->
    bookings_seq s' = bookings_seq s ->
    bookings_change s s'.

(** How an operation other than a red flag may change the [students]
    table. *)
Inductive students_quiet (s s' : db) : Prop :=
| students_kept :
    students s' = students s -> students_seq s' = students_seq s ->
    students_quiet s s'
| students_renamed name grade sid :
    students s' = fmap (update_name_grade name grade sid) (students s) ->
    students_seq s' = students_seq s ->
    students_quiet s s'
| students_inserted row :
    students s' = students s ++ [row] ->
    s_id row = students_seq s + 1 ->
    black_points row = 0 ->
    students_seq s' = students_seq s + 1 ->
    students_quiet s s'.

(** The change made by a red flag on student [sid]. *)
Definition students_flagged (sid : Z) (s s' : db) : Prop :=
  students s' = fmap (add_black_point sid) (students s) /\
  students_seq s' = students_seq s.

(** How one operation may change the [students] table. *)
Definition students_change (s s' : db) : Prop :=
  students_quiet s s' \/ exists sid, students_flagged sid s s'.

(** The black points of the rows that are there are kept, row by row. *)
Definition black_points_kept (s s' : db) : Prop :=
  forall (i : nat) (r : student),
    students s !! i = Some r ->
    exists r', students s' !! i = Some r' /\ s_id r' = s_id r /\
               black_points r' = black_points r.

(** A booking of the slot is in the table. *)
Definition slot_booked (date : string) (p : Z) (sp : string) (s : db) : Prop :=
  exists b, b ∈ bookings s /\
            booking_date b = date /\ b_period b = p /\ sport b = sp.

(** ** The other routes *)

(** [date.isoformat()]: the year on four digits, month and day on two. *)
Definition four_digits (n : Z) : string :=
  String (Py.digit_chr (n / 1000 mod 10))
    (String (Py.digit_chr (n / 100 mod 10)) (Py.two_digits n)).

Definition isoformat (d : Py.date) : string :=
  String.append (four_digits (Py.year d))
    (String "-"%char
       (String.append (Py.two_digits (Py.month d))
          (String "-"%char (Py.two_digits (Py.day d))))).

(** What the routes other than the booking and admin actions answer: a
    [response], the booking page with its hidden date and its list of
    periods, the login page, or a JSON object [{"ok": .., "msg": ..}]. *)
Inductive reply :=
| plain (r : response)
| render_book (booking_date : string) (periods : list period_entry)
| render_admin_login
| jsonify (ok : bool) (msg : option string).

(** [book]: [ds] is the [date] query parameter, [today] is [date.today()].
    A missing, empty or unreadable parameter stands for today. *)
Definition book (today : Py.date) (ds : option string) : reply :=
  let booking_date :=
    match ds with
    | Some t =>
        if Py.nonempty t then
          match Py.strptime_ymd t with
          | Some d => d
          | None => today
          end
        else today
    | None => today
    end in
  let periods := get_day_periods booking_date in
  match periods with
  | [] => plain (render_fail "No school on this date (only Mon-Thu supported).")
  | _ => render_book (isoformat booking_date) periods
  end.

(** [api_check_slot]: the fields are those of the form, [None] when not
    sent. [int(period)] is evaluated while the period is looked up and once
    more for [is_slot_taken]. *)
Definition api_check_slot (date_field period_field sport_field : option string)
    (s : db) : reply :=
  match date_field, period_field, sport_field with
  | Some date, Some pf, Some sp =>
      if negb (Py.nonempty date && Py.nonempty pf && Py.nonempty sp)
      then jsonify false (Some "missing fields")
      else
        match Py.strptime_ymd date with
        | None => jsonify false (Some "invalid date")
        | Some bdate =>
            match find_period (get_day_periods bdate) pf with
            | None => plain (uncaught "ValueError")
            | Some None => jsonify false (Some "period not valid on this date")
            | Some (Some p) =>
                if negb (bookable p)
                then jsonify false (Some "period not bookable by rules")
                else
                  match Py.int pf with
                  | None => plain (uncaught "ValueError")
                  | Some n =>
                      if is_slot_taken date n sp s
                      then jsonify false (Some "slot already taken")
                      else jsonify true None
                  end
            end
        end
  | _, _, _ => jsonify false (Some "missing fields")
  end.

(** *** The admin session *)

(** [ADMIN_USER] and [ADMIN_PASS] are read from the environment when the
    program starts. *)
Record credentials := mk_credentials {
  ADMIN_USER : string;
  ADMIN_PASS : string
}.

(** The values without [USS_ADMIN_USER] and [USS_ADMIN_PASS]. *)
Definition default_credentials : credentials := mk_credentials "admin" "adminpass".

Inductive http_method := GET | POST.

Definition admin_root : reply := plain (redirect "admin_login").

(** [admin_login]: [session] is the truth value of
    [session.get("admin_logged_in")]; the pair is the session after the
    request and the answer. *)
Definition admin_login (c : credentials) (m : http_method)
    (username password : option string) (session : bool) : bool * reply :=
  match m with
  | POST =>
      if bool_decide (username = Some (ADMIN_USER c))
         && bool_decide (password = Some (ADMIN_PASS c))
      then (true, plain (redirect "admin_dashboard"))
      else (session, render_admin_login)
  | GET => (session, render_admin_login)
  end.

(** [session.pop("admin_logged_in", None)] *)
Definition admin_logout (session : bool) : bool * reply :=
  (false, plain (redirect "index")).

(** The requests of one browser that reach the handlers above. The pages
    that only read ([index], [admin_dashboard], [admin_export]) are left
    out. *)
Inductive request :=
| Req_book (today : Py.date) (ds : option string)
| Req_check_slot (date_field period_field sport_field : option string)
| Req_submit_booking (e : env) (f : booking_form)
| Req_admin_root
| Req_admin_login (m : http_method) (username password : option string)
| Req_admin_logout
| Req_admin_delete (bid : Z)
| Req_admin_redflag (student_id : Z)
| Req_admin_settings (thr : option string).

(** One request: the state is the session of the browser and the
    database. *)
Definition serve (c : credentials) (r : request) (st : bool * db)
    : (bool * db) * reply :=
  let '(session, s) := st in
  match r with
  | Req_book today ds => (st, book today ds)
  | Req_check_slot d p sp => (st, api_check_slot d p sp s)
  | Req_submit_booking e f =>
      let '(s', a) := submit_booking e f s in ((session, s'), plain a)
  | Req_admin_root => (st, admin_root)
  | Req_admin_login m u p =>
      let '(session', a) := admin_login c m u p session in ((session', s), a)
  | Req_admin_logout =>
      let '(session', a) := admin_logout session in ((session', s), a)
  | Req_admin_delete bid =>
      let '(s', a) := admin_delete session bid s in ((session, s'), plain a)
  | Req_admin_redflag student_id =>
      let '(s', a) := admin_redflag session student_id s in ((session, s'), plain a)
  | Req_admin_settings thr =>
      let '(s', a) := admin_settings session thr s in ((session, s'), plain a)
  end.

Fixpoint serve_all (c : credentials) (rs : list request) (st : bool * db)
    : bool * db :=
  match rs with
  | [] => st
  | r :: rest => serve_all c rest (fst (serve c r st))
  end.

(** A login request that carries the credentials. *)
Definition logs_in (c : credentials) (r : request) : bool :=
  match r with
  | Req_admin_login POST u p =>
      bool_decide (u = Some (ADMIN_USER c)) && bool_decide (p = Some (ADMIN_PASS c))
  | _ => false
  end.

(** The booking is for a period that the timetable of its date offers for
    booking. *)
Definition on_timetable (b : booking) : bool :=
  match Py.strptime_ymd (booking_date b) with
  | Some d =>
      existsb (fun p => (period p =? b_period b) && bookable p) (get_day_periods d)
  | None => false
  end.

(** The leader of the booking is a row of [students]. *)
Definition leader_known (s : db) (b : booking) : bool :=
  existsb (fun r => s_id r =? leader_student_id b) (students s).

(** Every stored booking is on the timetable and has a known leader. *)
Definition bookings_valid (s : db) : Prop :=
  Forall (fun b => on_timetable b = true /\ leader_known s b = true) (bookings s).
(** * Properties *)

(** ** The timetable *)

Lemma weekday_range d : 0 <= Py.weekday d < 7.
Proof. unfold Py.weekday. apply Z.mod_pos_bound. lia. Qed.

(** The list of a day is a function of its weekday alone; these are the four
    lists. *)
Lemma periods_45 d :
  Py.weekday d = 0 \/ Py.weekday d = 2 ->
  get_day_periods d =
  [ mk_period 1 "07:30" "08:15" true; mk_period 2 "08:15" "09:00" true;
    mk_period 3 "09:00" "09:45" true; mk_period 4 "09:45" "10:30" true;
    mk_period 5 "10:55" "11:40" true; mk_period 6 "11:40" "12:25" true;
    mk_period 7 "12:25" "13:10" true; mk_period 8 "13:25" "14:10" false ].
Proof.
  intros [H | H]; unfold get_day_periods; rewrite H; vm_compute; reflexivity.
Qed.

Lemma periods_40 d :
  Py.weekday d = 1 \/ Py.weekday d = 3 ->
  get_day_periods d =
  [ mk_period 1 "07:30" "08:10" (negb (Py.weekday d =? 3));
    mk_period 2 "08:10" "08:50" true;
    mk_period 3 "08:50" "09:30" true; mk_period 4 "09:30" "10:10" true;
    mk_period 5 "10:35" "11:15" true; mk_period 6 "11:15" "11:55" true;
    mk_period 7 "11:55" "12:35" true; mk_period 8 "12:50" "13:30" true;
    mk_period 9 "13:30" "14:10" false ].
Proof.
  intros [H | H]; unfold get_day_periods; rewrite H; vm_compute; reflexivity.
Qed.

Lemma periods_weekend d : 3 < Py.weekday d -> get_day_periods d = [].
Proof.
  intros H. unfold get_day_periods.
  destruct (3 <? Py.weekday d) eqn:E; [reflexivity | lia].
Qed.

Lemma school_day_cases d :
  Py.weekday d <= 3 ->
  (Py.weekday d = 0 \/ Py.weekday d = 2) \/ (Py.weekday d = 1 \/ Py.weekday d = 3).
Proof. pose proof (weekday_range d). lia. Qed.

(** C3. Period counts and lengths by weekday: on a Monday or Wednesday
    [get_day_periods] returns exactly 8 periods, each 45 minutes long; on a
    Tuesday or Thursday exactly 9 periods, each 40 minutes long; on a Friday,
    Saturday or Sunday the empty list. *)
Theorem period_counts_and_lengths (d : Py.date) :
  (Py.weekday d = 0 \/ Py.weekday d = 2 ->
     length (get_day_periods d) = 8%nat /\
     Forall (fun p => period_minutes p = Some 45) (get_day_periods d)) /\
  (Py.weekday d = 1 \/ Py.weekday d = 3 ->
     length (get_day_periods d) = 9%nat /\
     Forall (fun p => period_minutes p = Some 40) (get_day_periods d)) /\
  (Py.weekday d = 4 \/ Py.weekday d = 5 \/ Py.weekday d = 6 ->
     get_day_periods d = []).
Proof.
  split; [| split].
  - intros H. rewrite (periods_45 d H). split; [reflexivity |].
    repeat constructor.
  - intros H. rewrite (periods_40 d H). split; [reflexivity |].
    repeat constructor.
  - intros H. apply periods_weekend. lia.
Qed.

(** 2024-01-01 was a Monday, 2024-01-02 a Tuesday, 2024-01-05 a Friday. *)
Lemma period_counts_and_lengths_witness :
  (length (get_day_periods (Py.mk_date 2024 1 1)) = 8%nat /\
   Forall (fun p => period_minutes p = Some 45)
          (get_day_periods (Py.mk_date 2024 1 1))) /\
  (length (get_day_periods (Py.mk_date 2024 1 2)) = 9%nat /\
   Forall (fun p => period_minutes p = Some 40)
          (get_day_periods (Py.mk_date 2024 1 2))) /\
  get_day_periods (Py.mk_date 2024 1 5) = [].
Proof.
  split; [| split].
  - apply (proj1 (period_counts_and_lengths (Py.mk_date 2024 1 1))).
    left. reflexivity.
  - apply (proj1 (proj2 (period_counts_and_lengths (Py.mk_date 2024 1 2)))).
    left. reflexivity.
  - apply (proj2 (proj2 (period_counts_and_lengths (Py.mk_date 2024 1 5)))).
    left. reflexivity.
Defined.

(** C4. Start and end times on a school day (Monday to Thursday): the periods
    are numbered 1..n in order, the first starts at 07:30, each lasts the
    period length of the day, periods follow each other without a gap except
    for 25 minutes after period 4 and 15 minutes after period 7, and the
    last period ends at 14:10. *)
Theorem period_times_follow_rules (d : Py.date) :
  Py.weekday d <= 3 ->
  let ps := get_day_periods d in
  fmap period ps = seqZ 1 (Z.of_nat (length ps)) /\
  start <$> head ps = Some "07:30" /\
  Forall (fun p => period_minutes p = Some (period_length_on d)) ps /\
  (forall i : nat, (1 <= i < length ps)%nat ->
     break_after i ps =
     Some (if (i =? 4)%nat then 25 else if (i =? 7)%nat then 15 else 0)) /\
  end_ <$> last ps = Some "14:10".
Proof.
  intros Hwd ps. subst ps. unfold period_length_on.
  destruct (school_day_cases d Hwd) as [H | H].
  - rewrite (periods_45 d H).
    assert (E : (Py.weekday d =? 0) || (Py.weekday d =? 2) = true)
      by (destruct H as [-> | ->]; reflexivity).
    rewrite E. repeat split; try reflexivity.
    + repeat constructor.
    + intros i Hi. simpl in Hi.
      do 8 (destruct i as [| i]; [first [lia | reflexivity] |]). lia.
  - rewrite (periods_40 d H).
    assert (E : (Py.weekday d =? 0) || (Py.weekday d =? 2) = false)
      by (destruct H as [-> | ->]; reflexivity).
    rewrite E. repeat split; try reflexivity.
    + repeat constructor.
    + intros i Hi. simpl in Hi.
      do 9 (destruct i as [| i]; [first [lia | reflexivity] |]). lia.
Qed.

Lemma period_times_follow_rules_witness :
  let ps := get_day_periods (Py.mk_date 2024 1 4) in
  fmap period ps = seqZ 1 (Z.of_nat (length ps)) /\
  start <$> head ps = Some "07:30" /\
  Forall (fun p => period_minutes p = Some (period_length_on (Py.mk_date 2024 1 4))) ps /\
  (forall i : nat, (1 <= i < length ps)%nat ->
     break_after i ps =
     Some (if (i =? 4)%nat then 25 else if (i =? 7)%nat then 15 else 0)) /\
  end_ <$> last ps = Some "14:10".
Proof.
  apply (period_times_follow_rules (Py.mk_date 2024 1 4)).
  vm_compute. discriminate.
Defined.

(** The periods of a date depend on its weekday only. *)
Lemma get_day_periods_weekday (d1 d2 : Py.date) :
  Py.weekday d1 = Py.weekday d2 -> get_day_periods d1 = get_day_periods d2.
Proof.
  intros E. pose proof (weekday_range d1) as R.
  assert (C : Py.weekday d1 <= 3 \/ 3 < Py.weekday d1) by lia.
  destruct C as [C | C].
  - destruct (school_day_cases d1 C) as [H | H].
    + rewrite (periods_45 d1 H). symmetry. apply periods_45. lia.
    + rewrite (periods_40 d1 H), E. symmetry. apply periods_40. lia.
  - rewrite (periods_weekend d1 C). symmetry. apply periods_weekend. lia.
Qed.


(** ** The tables *)

(** *** What each helper touches *)

Lemma find_by_name_or_create_frame name email grade s :
  let s' := fst (find_by_name_or_create name email grade s) in
  bookings s' = bookings s /\ bookings_seq s' = bookings_seq s /\
  settings s' = settings s.
Proof.
  unfold find_by_name_or_create.
  destruct (find _ _); simpl; auto.
Qed.

Lemma find_or_create_student_frame name email grade s :
  let s' := fst (find_or_create_student name email grade s) in
  bookings s' = bookings s /\ bookings_seq s' = bookings_seq s /\
  settings s' = settings s.
Proof.
  unfold find_or_create_student.
  destruct email as [e |]; [destruct (Py.nonempty e) |];
    try apply find_by_name_or_create_frame.
  destruct (find _ _); [simpl; auto | apply find_by_name_or_create_frame].
Qed.

Lemma find_by_name_or_create_students name email grade s :
  let s' := fst (find_by_name_or_create name email grade s) in
  (s' = s) \/
  (exists row, students s' = students s ++ [row] /\
               s_id row = students_seq s + 1 /\ black_points row = 0 /\
               students_seq s' = students_seq s + 1).
Proof.
  unfold find_by_name_or_create.
  destruct (find _ _); simpl; [left; reflexivity |].
  right. eexists. repeat split; reflexivity.
Qed.

Lemma find_or_create_student_change name email grade s :
  students_quiet s (fst (find_or_create_student name email grade s)).
Proof.
  assert (K : forall s', (s' = s) \/
     (exists row, students s' = students s ++ [row] /\
               s_id row = students_seq s + 1 /\ black_points row = 0 /\
               students_seq s' = students_seq s + 1) -> students_quiet s s').
  { intros s' [-> | (row & H1 & H2 & H3 & H4)].
    - apply students_kept; reflexivity.
    - eapply students_inserted; eauto. }
  unfold find_or_create_student.
  destruct email as [e |]; [destruct (Py.nonempty e) |];
    try (apply K, find_by_name_or_create_students).
  destruct (find _ _) as [row |];
    [| apply K, find_by_name_or_create_students].
  simpl. eapply students_renamed; reflexivity.
Qed.

Lemma create_booking_frame e date p sp leader others s :
  let s' := fst (create_booking e date p sp leader others s) in
  students s' = students s /\ students_seq s' = students_seq s /\
  settings s' = settings s.
Proof.
  unfold create_booking.
  destruct (unique_violation _ _ _ _); [simpl; auto |].
  destruct (excel_error e); simpl; auto.
Qed.

Lemma create_booking_change e date p sp leader others s :
  bookings_change s (fst (create_booking e date p sp leader others s)).
Proof.
  unfold create_booking.
  destruct (unique_violation _ _ _ _) eqn:U.
  - apply bookings_kept; reflexivity.
  - destruct (excel_error e); simpl;
      (eapply bookings_inserted; [reflexivity | exact U | reflexivity | reflexivity]).
Qed.


(** The state after [submit_booking]: nothing was done, or the student was
    looked up or created, or the booking was made after that. *)
Lemma submit_booking_state e f s :
  fst (submit_booking e f s) = s \/
  exists name email grade,
    let s1 := fst (find_or_create_student name email grade s) in
    let leader_id := snd (find_or_create_student name email grade s) in
    fst (submit_booking e f s) = s1 \/
    exists date n sp others,
      fst (submit_booking e f s)
      = fst (create_booking e date n sp leader_id others s1).
Proof.
  unfold submit_booking.
  repeat case_match; cbn [fst snd]; auto; right;
    match goal with
    | H : find_or_create_student ?n ?em ?g s = _ |- _ =>
        exists n, em, g; rewrite H; cbn [fst snd]
    end; auto;
    right;
    match goal with
    | H : create_booking e ?d ?n ?sp ?l ?o ?s1 = _ |- _ =>
        exists d, n, sp, o; rewrite H; reflexivity
    end.
Qed.

(** *** Every operation changes the tables in one of the listed ways *)

Lemma bookings_change_from s0 s s' :
  bookings s0 = bookings s -> bookings_seq s0 = bookings_seq s ->
  bookings_change s0 s' -> bookings_change s s'.
Proof.
  intros Eb Es [H1 H2 | row H1 H2 H3 H4 | bid H1 H2].
  - apply bookings_kept; congruence.
  - apply (bookings_inserted s s' row); congruence.
  - apply (bookings_deleted s s' bid); congruence.
Qed.

Lemma students_quiet_to s s1 s' :
  students s' = students s1 -> students_seq s' = students_seq s1 ->
  students_quiet s s1 -> students_quiet s s'.
Proof.
  intros Eb Es [H1 H2 | n g sid H1 H2 | row H1 H2 H3 H4].
  - apply students_kept; congruence.
  - apply (students_renamed s s' n g sid); congruence.
  - apply (students_inserted s s' row); congruence.
Qed.

Lemma submit_booking_changes e f s :
  students_quiet s (fst (submit_booking e f s)) /\
  bookings_change s (fst (submit_booking e f s)).
Proof.
  destruct (submit_booking_state e f s) as [-> | (name & email & grade & H)].
  { split; [apply students_kept | apply bookings_kept]; reflexivity. }
  cbv zeta in H.
  pose proof (find_or_create_student_frame name email grade s) as (F1 & F2 & _).
  pose proof (find_or_create_student_change name email grade s) as C.
  destruct H as [-> | (date & n & sp & others & ->)].
  - split; [exact C |]. apply bookings_kept; assumption.
  - set (s1 := fst (find_or_create_student name email grade s)) in *.
    set (leader := snd (find_or_create_student name email grade s)).
    pose proof (create_booking_frame e date n sp leader others s1) as (G1 & G2 & _).
    split.
    + eapply students_quiet_to; eauto.
    + eapply bookings_change_from; [exact F1 | exact F2 |].
      apply create_booking_change.
Qed.

Lemma set_setting_frame key value s :
  students (set_setting key value s) = students s /\
  students_seq (set_setting key value s) = students_seq s /\
  bookings (set_setting key value s) = bookings s /\
  bookings_seq (set_setting key value s) = bookings_seq s.
Proof. unfold set_setting. destruct (Py.str value); cbn; auto. Qed.

Lemma admin_settings_frame logged_in thr s :
  let s' := fst (admin_settings logged_in thr s) in
  students s' = students s /\ students_seq s' = students_seq s /\
  bookings s' = bookings s /\ bookings_seq s' = bookings_seq s.
Proof.
  unfold admin_settings, admin_required.
  repeat case_match; cbn [fst]; auto using set_setting_frame.
Qed.

Lemma run_students_quiet o s :
  (forall sid, o <> Admin_redflag true sid) -> students_quiet s (run o s).
Proof.
  intros Ho.
  destruct o as [e f | e date p sp leader others | name email grade
                | logged_in bid | logged_in sid | logged_in thr | key value];
    cbn [run].
  - apply submit_booking_changes.
  - pose proof (create_booking_frame e date p sp leader others s) as (G1 & G2 & _).
    apply students_kept; assumption.
  - apply find_or_create_student_change.
  - destruct logged_in; apply students_kept; reflexivity.
  - destruct logged_in; [destruct (Ho sid); reflexivity |].
    apply students_kept; reflexivity.
  - pose proof (admin_settings_frame logged_in thr s) as (G1 & G2 & _).
    apply students_kept; assumption.
  - pose proof (set_setting_frame key value s) as (G1 & G2 & _).
    apply students_kept; assumption.
Qed.

Lemma run_students_change o s : students_change s (run o s).
Proof.
  destruct o as [e f | e date p sp leader others | name email grade
                | logged_in bid | [|] sid | logged_in thr | key value];
    try (left; apply run_students_quiet; discriminate).
  right. exists sid. split; reflexivity.
Qed.

Lemma run_bookings_change o s : bookings_change s (run o s).
Proof.
  destruct o as [e f | e date p sp leader others | name email grade
                | logged_in bid | logged_in sid | logged_in thr | key value];
    cbn [run].
  - apply submit_booking_changes.
  - apply create_booking_change.
  - pose proof (find_or_create_student_frame name email grade s) as (F1 & F2 & _).
    apply bookings_kept; assumption.
  - destruct logged_in; [eapply bookings_deleted | apply bookings_kept]; reflexivity.
  - destruct logged_in; apply bookings_kept; reflexivity.
  - pose proof (admin_settings_frame logged_in thr s) as (_ & _ & G1 & G2).
    apply bookings_kept; assumption.
  - pose proof (set_setting_frame key value s) as (_ & _ & G1 & G2).
    apply bookings_kept; assumption.
Qed.

(** *** The constraints of the schema hold in every state *)

Lemma update_name_grade_id name grade sid r :
  s_id (update_name_grade name grade sid r) = s_id r.
Proof. unfold update_name_grade. destruct (s_id r =? sid); reflexivity. Qed.

Lemma add_black_point_id sid r : s_id (add_black_point sid r) = s_id r.
Proof. unfold add_black_point. destruct (s_id r =? sid); reflexivity. Qed.

Lemma fmap_ids_same (g : student -> student) (rows : list student) :
  (forall r, s_id (g r) = s_id r) -> s_id <$> (g <$> rows) = s_id <$> rows.
Proof.
  intros H. induction rows as [| r rows IH]; cbn; [reflexivity |].
  rewrite H, IH. reflexivity.
Qed.

Lemma unique_violation_false date p sp rows :
  unique_violation date p sp rows = false ->
  (date, p, sp) ∉ slot_of <$> rows.
Proof.
  unfold unique_violation. intros H Hin.
  apply list_elem_of_fmap in Hin as (b & Eb & Hb).
  assert (existsb (same_slot date p sp) rows = true); [| congruence].
  apply existsb_exists. exists b. split; [apply list_elem_of_In; exact Hb |].
  unfold slot_of in Eb. injection Eb as -> -> ->.
  unfold same_slot. rewrite !String.eqb_refl, Z.eqb_refl. reflexivity.
Qed.

Lemma NoDup_snoc_fresh {A} (l : list A) (x : A) :
  NoDup l -> x ∉ l -> NoDup (l ++ [x]).
Proof.
  intros Hl Hx. apply NoDup_app. split; [exact Hl |]. split.
  - intros y Hy Hin. apply list_elem_of_singleton in Hin. subst. contradiction.
  - apply NoDup_singleton.
Qed.

Lemma issued_fresh {A} (key : A -> Z) (rows : list A) (seq : Z) :
  Forall (fun r => key r <= seq) rows -> seq + 1 ∉ key <$> rows.
Proof.
  intros H Hin. apply list_elem_of_fmap in Hin as (r & E & Hr).
  rewrite Forall_forall in H. specialize (H r Hr). lia.
Qed.

Lemma db_ok_preserved s s' :
  db_ok s -> students_change s s' -> bookings_change s s' -> db_ok s'.
Proof.
  intros [U1 I1 U2 I2 U3] Cs Cb.
  assert (Hs : NoDup (s_id <$> students s') /\
               Forall (fun r => s_id r <= students_seq s') (students s')).
  { destruct Cs as [[H1 H2 | n g sid H1 H2 | row H1 H2 H3 H4] | [sid [H1 H2]]];
      rewrite H1.
    - rewrite H2. auto.
    - rewrite H2, fmap_ids_same by apply update_name_grade_id. split; [exact U1 |].
      apply Forall_fmap. eapply Forall_impl; [exact I1 |].
      intros r Hr. cbn. rewrite update_name_grade_id. exact Hr.
    - rewrite H4, fmap_app. cbn. split.
      + apply NoDup_snoc_fresh; [exact U1 |]. rewrite H2.
        apply issued_fresh. exact I1.
      + apply Forall_app. split.
        * eapply Forall_impl; [exact I1 |]. intros r Hr. cbn in *. lia.
        * repeat constructor. lia.
    - rewrite H2, fmap_ids_same by apply add_black_point_id. split; [exact U1 |].
      apply Forall_fmap. eapply Forall_impl; [exact I1 |].
      intros r Hr. cbn. rewrite add_black_point_id. exact Hr. }
  assert (Hb : NoDup (b_id <$> bookings s') /\
               Forall (fun b => b_id b <= bookings_seq s') (bookings s') /\
               NoDup (slot_of <$> bookings s')).
  { destruct Cb as [H1 H2 | row H1 H2 H3 H4 | bid H1 H2]; rewrite H1.
    - rewrite H2. auto.
    - rewrite H4, !fmap_app. cbn. split; [| split].
      + apply NoDup_snoc_fresh; [exact U2 |]. rewrite H3.
        apply issued_fresh. exact I2.
      + apply Forall_app. split.
        * eapply Forall_impl; [exact I2 |]. intros r Hr. cbn in *. lia.
        * repeat constructor. lia.
      + apply NoDup_snoc_fresh; [exact U3 |].
        apply unique_violation_false. exact H2.
    - rewrite H2. split; [| split].
      + apply (sublist_NoDup _ (b_id <$> bookings s)); [exact U2 |].
        apply fmap_sublist, sublist_filter.
      + apply Forall_forall. intros b Hb.
        apply list_elem_of_filter in Hb as [_ Hb].
        rewrite Forall_forall in I2. exact (I2 b Hb).
      + apply (sublist_NoDup _ (slot_of <$> bookings s)); [exact U3 |].
        apply fmap_sublist, sublist_filter. }
  destruct Hs as [? ?], Hb as (? & ? & ?). constructor; assumption.
Qed.

Lemma db_ok_initial : db_ok initial_db.
Proof. constructor; cbn; constructor. Qed.

Lemma db_ok_run o s : db_ok s -> db_ok (run o s).
Proof.
  intros H. eapply db_ok_preserved;
    [exact H | apply run_students_change | apply run_bookings_change].
Qed.

Lemma reachable_db_ok s : reachable s -> db_ok s.
Proof.
  induction 1 as [| s o _ IH]; [apply db_ok_initial | apply db_ok_run, IH].
Qed.

(** ** Bookings *)

Lemma same_slot_spec date p sp b :
  same_slot date p sp b = true <-> slot_of b = (date, p, sp).
Proof.
  unfold same_slot, slot_of. split.
  - intros H. apply andb_true_iff in H as [H H3].
    apply andb_true_iff in H as [H1 H2].
    apply String.eqb_eq in H1, H3. apply Z.eqb_eq in H2. congruence.
  - intros H. injection H as -> -> ->.
    rewrite !String.eqb_refl, Z.eqb_refl. reflexivity.
Qed.

Lemma filter_none {A} (P : A -> Prop) `{forall x, Decision (P x)} (l : list A) :
  (forall x, x ∈ l -> ~ P x) -> filter P l = [].
Proof.
  intros N. destruct (filter P l) as [| x k] eqn:E; [reflexivity |].
  assert (Hx : x ∈ filter P l) by (rewrite E; left).
  apply list_elem_of_filter in Hx as [Px Hx]. destruct (N x Hx Px).
Qed.

Lemma slot_rows_at_most_one date p sp (rows : list booking) :
  NoDup (slot_of <$> rows) ->
  (length (filter (fun b => same_slot date p sp b = true) rows) <= 1)%nat.
Proof.
  induction rows as [| b rows IH]; intros H; [cbn; lia |].
  rewrite fmap_cons in H. apply NoDup_cons in H as [Hb Hrows].
  rewrite filter_cons. destruct (decide (same_slot date p sp b = true)) as [E | E].
  - assert (N : filter (fun b => same_slot date p sp b = true) rows = []).
    { apply filter_none. intros c Hc Ec. apply Hb.
      apply same_slot_spec in E, Ec. rewrite E, <- Ec.
      apply list_elem_of_fmap. eauto. }
    rewrite N. cbn. lia.
  - apply IH, Hrows.
Qed.

(** C1. Slot uniqueness: in every state that the operations of the program
    can reach, at most one row of [bookings] has a given
    (booking_date, period, sport). *)
Theorem slot_uniqueness (s : db) :
  reachable s ->
  forall (date : string) (p : Z) (sp : string),
    (length (rows_of_slot date p sp s) <= 1)%nat.
Proof.
  intros H date p sp. apply slot_rows_at_most_one.
  apply slots_unique, reachable_db_ok, H.
Qed.

Lemma slot_uniqueness_witness :
  (length (rows_of_slot "2024-01-01" 2 "Football"
     (run (Create_booking (mk_env "2024-01-01T09:00:00" None)
                          "2024-01-01" 2 "Football" 1 "")
          (run (Create_booking (mk_env "2024-01-01T08:00:00" None)
                               "2024-01-01" 2 "Football" 1 "")
               initial_db))) <= 1)%nat.
Proof.
  apply (slot_uniqueness _
           (reachable_step _ _ (reachable_step _ _ reachable_init))).
Defined.

Lemma is_slot_taken_spec date p sp s :
  is_slot_taken date p sp s = true <-> slot_booked date p sp s.
Proof.
  unfold is_slot_taken, slot_booked. split.
  - intros H. apply Z.ltb_lt in H.
    destruct (filter _ (bookings s)) as [| b l] eqn:E; [cbn in H; lia |].
    assert (Hb : b ∈ filter (fun b => same_slot date p sp b = true) (bookings s))
      by (rewrite E; left).
    apply list_elem_of_filter in Hb as [Hb1 Hb2].
    apply same_slot_spec in Hb1. injection Hb1 as ? ? ?. eauto.
  - intros (b & Hb & E1 & E2 & E3). apply Z.ltb_lt.
    assert (Hf : b ∈ filter (fun b => same_slot date p sp b = true) (bookings s)).
    { apply list_elem_of_filter. split; [| exact Hb].
      apply same_slot_spec. unfold slot_of. congruence. }
    destruct (filter _ (bookings s)); [inversion Hf | cbn; lia].
Qed.

Lemma unique_violation_spec date p sp s :
  unique_violation date p sp (bookings s) = true <-> slot_booked date p sp s.
Proof.
  unfold unique_violation, slot_booked. rewrite existsb_exists. split.
  - intros (b & Hb & E). apply same_slot_spec in E. injection E as ? ? ?.
    exists b. rewrite list_elem_of_In. auto.
  - intros (b & Hb & E1 & E2 & E3). exists b. rewrite <- list_elem_of_In.
    split; [exact Hb |]. apply same_slot_spec. unfold slot_of. congruence.
Qed.

(** What [create_booking] does, for a period and a leader that SQLite can
    store: it returns (False, "slot_taken") and leaves [bookings] as it was
    exactly when the slot has a booking; when it has none, the table
    afterwards is the old one and one new row with the field values given,
    and the result is (True, None) when the row could be appended to the
    spreadsheet, and (False, message) when that raised an exception.
    Nothing else is touched. *)
Lemma create_booking_outcomes (e : env) (date : string) (p : Z) (sp : string)
    (leader : Z) (others : string) (s : db) :
  sqlite_integer p = true -> sqlite_integer leader = true ->
  let s' := fst (create_booking e date p sp leader others s) in
  let r := snd (create_booking e date p sp leader others s) in
  ((r = (false, Some "slot_taken") /\ bookings s' = bookings s)
   <-> slot_booked date p sp s) /\
  (~ slot_booked date p sp s ->
     bookings s' =
       bookings s ++
       [mk_booking (bookings_seq s + 1) date p sp leader others (utcnow e)] /\
     r = match excel_error e with
         | None => (true, None)
         | Some msg => (false, Some msg)
         end) /\
  students s' = students s /\ settings s' = settings s.
Proof.
  intros _ _.
  cbv zeta. unfold create_booking.
  destruct (unique_violation date p sp (bookings s)) eqn:U.
  - apply unique_violation_spec in U. cbn.
    split; [| split; [| split; reflexivity]].
    + split; [intros _; exact U | intros _; split; reflexivity].
    + intros N. contradiction.
  - assert (N : ~ slot_booked date p sp s).
    { intros B. apply unique_violation_spec in B. congruence. }
    assert (L : forall row : booking, bookings s ++ [row] <> bookings s).
    { intros row E. apply (f_equal length) in E.
      rewrite length_app in E. cbn in E. lia. }
    destruct (excel_error e); cbn;
      (split; [| split; [| split; reflexivity]]);
      try (intros _; split; reflexivity);
      (split; [intros [_ E]; destruct (L _ E) | intros B; contradiction]).
Qed.

(** C2. The defect, at one input. The slot (2024-01-01, period 2, Football)
    is free and the spreadsheet cannot be written: [create_booking] stores
    the booking and then returns (False, message of the exception) where
    the claim promises (True, None); the slot is taken from then on, so
    that the same call made again returns (False, "slot_taken"). *)
Lemma create_booking_not_true_when_excel_fails :
  let e := mk_env "2024-01-01T08:00:00"
                  (Some "[Errno 13] Permission denied: 'bookings.xlsx'") in
  let out := create_booking e "2024-01-01" 2 "Football" 1 "" initial_db in
  is_slot_taken "2024-01-01" 2 "Football" initial_db = false /\
  snd out = (false, Some "[Errno 13] Permission denied: 'bookings.xlsx'") /\
  snd out <> (true, None) /\
  bookings (fst out) =
    [mk_booking 1 "2024-01-01" 2 "Football" 1 "" "2024-01-01T08:00:00"] /\
  is_slot_taken "2024-01-01" 2 "Football" (fst out) = true /\
  create_booking e "2024-01-01" 2 "Football" 1 "" (fst out)
  = (fst out, (false, Some "slot_taken")).
Proof.
  cbv zeta. split; [reflexivity |]. split; [reflexivity |].
  split; [discriminate |]. repeat split.
Qed.

Lemma create_booking_outcomes_witness :
  let e := mk_env "2024-01-01T08:00:00" None in
  let out := create_booking e "2024-01-01" 2 "Football" 1 "" initial_db in
  bookings (fst out) =
    bookings initial_db ++
    [mk_booking 1 "2024-01-01" 2 "Football" 1 "" "2024-01-01T08:00:00"] /\
  snd out = (true, None).
Proof.
  cbv zeta.
  apply (proj1 (proj2 (create_booking_outcomes
                         (mk_env "2024-01-01T08:00:00" None)
                         "2024-01-01" 2 "Football" 1 "" initial_db
                         eq_refl eq_refl))).
  intros (b & Hb & _). inversion Hb.
Defined.

(** ** The admin routes *)

Lemma with_bookings_same s : with_bookings (bookings s) (bookings_seq s) s = s.
Proof. destruct s; reflexivity. Qed.

Lemma delete_removes_one bid (rows : list booking) :
  NoDup (b_id <$> rows) ->
  (length rows <= length (filter (fun b => b_id b ≠ bid) rows) + 1)%nat.
Proof.
  induction rows as [| b rows IH]; intros H; [cbn; lia |].
  rewrite fmap_cons in H. apply NoDup_cons in H as [Hb Hrows].
  rewrite filter_cons. destruct (decide (b_id b ≠ bid)) as [E | E].
  - cbn. specialize (IH Hrows). lia.
  - assert (Eb : b_id b = bid) by (destruct (decide (b_id b = bid)); tauto).
    assert (K : filter (fun b => b_id b ≠ bid) rows = rows).
    { clear IH Hrows. induction rows as [| c rows IH]; [reflexivity |].
      rewrite filter_cons. rewrite fmap_cons in Hb.
      apply not_elem_of_cons in Hb as [Hc Hb].
      destruct (decide (b_id c ≠ bid)); [rewrite IH by exact Hb; reflexivity |].
      destruct (decide (b_id c = bid)); [congruence | contradiction]. }
    rewrite K. cbn. lia.
Qed.

(** C10. Frame of the deletion of a booking: [admin_delete] touches neither
    [students] nor [settings]; the bookings that stay are the old ones, in
    their order, and every row whose id is not the given one stays; a row
    that goes has the given id, and (ids being unique) at most one row
    goes; when no booking has the id, the state is as it was. *)
Theorem admin_delete_frame (logged_in : bool) (bid : Z) (s : db) :
  let s' := fst (admin_delete logged_in bid s) in
  students s' = students s /\ students_seq s' = students_seq s /\
  settings s' = settings s /\ bookings_seq s' = bookings_seq s /\
  bookings s' `sublist_of` bookings s /\
  filter (fun b => b_id b ≠ bid) (bookings s')
    = filter (fun b => b_id b ≠ bid) (bookings s) /\
  (forall b, b ∈ bookings s -> b ∉ bookings s' -> b_id b = bid) /\
  (db_ok s -> (length (bookings s) <= length (bookings s') + 1)%nat) /\
  ((forall b, b ∈ bookings s -> b_id b ≠ bid) -> s' = s).
Proof.
  cbv zeta. unfold admin_delete, admin_required.
  destruct logged_in; cbn [fst with_bookings students students_seq settings
                           bookings bookings_seq].
  - repeat (split; [reflexivity |]).
    split; [apply sublist_filter |].
    split; [apply list_filter_filter_l; auto |].
    split; [| split].
    + intros b Hb N. destruct (decide (b_id b = bid)) as [E | E]; [exact E |].
      destruct N. apply list_elem_of_filter. auto.
    + intros [_ _ U _ _]. apply delete_removes_one, U.
    + intros N.
      assert (K : filter (fun b => b_id b ≠ bid) (bookings s) = bookings s).
      { clear -N. induction (bookings s) as [| b rows IH]; [reflexivity |].
        rewrite filter_cons_True by (apply N; left).
        f_equal. apply IH. intros c Hc. apply N. right. exact Hc. }
      rewrite K. apply with_bookings_same.
  - repeat (split; [reflexivity |]).
    split; [intros b Hb N; contradiction |].
    split; [intros _; lia | reflexivity].
Qed.

Lemma admin_delete_frame_witness :
  let s := run (Create_booking (mk_env "2024-01-01T08:00:00" None)
                               "2024-01-01" 2 "Football" 1 "")
               initial_db in
  (length (bookings s) <= length (bookings (fst (admin_delete true 1 s))) + 1)%nat /\
  fst (admin_delete true 7 s) = s.
Proof.
  cbv zeta. split.
  - apply (admin_delete_frame true 1).
    apply reachable_db_ok, reachable_step, reachable_init.
  - apply (admin_delete_frame true 7).
    intros b Hb. apply list_elem_of_singleton in Hb. subst b. discriminate.
Defined.

(** ** Black points *)

Lemma students_quiet_black_points s s' :
  students_quiet s s' -> black_points_kept s s'.
Proof.
  intros [H1 H2 | n g sid H1 H2 | row H1 H2 H3 H4] i r Hr; rewrite H1.
  - eauto.
  - rewrite list_lookup_fmap, Hr. cbn. eexists. split; [reflexivity |].
    unfold update_name_grade. destruct (s_id r =? sid); auto.
  - exists r. split; [| auto]. apply lookup_app_l_Some. exact Hr.
Qed.

Lemma students_change_black_points s s' :
  students_change s s' ->
  forall (i : nat) (r : student),
    students s !! i = Some r ->
    exists r', students s' !! i = Some r' /\ s_id r' = s_id r /\
               black_points r <= black_points r'.
Proof.
  intros [Q | [sid [H1 H2]]] i r Hr.
  - destruct (students_quiet_black_points s s' Q i r Hr) as (r' & ? & ? & ?).
    exists r'. repeat split; [assumption | assumption | lia].
  - rewrite H1, list_lookup_fmap, Hr. cbn. eexists. split; [reflexivity |].
    unfold add_black_point. destruct (s_id r =? sid); cbn; split; auto; lia.
Qed.

(** C9. Black points never decrease: over any run of operations a student
    row keeps its place and its id, and its black points do not go down;
    an operation other than a red flag keeps the black points of every row;
    a red flag adds exactly one to the rows of the given id, keeps every
    other student row as it is, and leaves [bookings] and [settings]
    untouched. *)
Theorem black_points_never_decrease :
  (forall (ops : list operation) (s : db) (i : nat) (r : student),
     students s !! i = Some r ->
     exists r', students (run_all ops s) !! i = Some r' /\
                s_id r' = s_id r /\ black_points r <= black_points r') /\
  (forall (o : operation) (s : db),
     (forall sid, o <> Admin_redflag true sid) -> black_points_kept s (run o s)) /\
  (forall (sid : Z) (s : db),
     let s' := fst (admin_redflag true sid s) in
     bookings s' = bookings s /\ bookings_seq s' = bookings_seq s /\
     settings s' = settings s /\ students_seq s' = students_seq s /\
     length (students s') = length (students s) /\
     forall (i : nat) (r : student),
       students s !! i = Some r ->
       students s' !! i =
         Some (if s_id r =? sid
               then mk_student (s_id r) (s_name r) (s_email r) (s_grade r)
                               (black_points r + 1)
               else r)).
Proof.
  split; [| split].
  - intros ops. induction ops as [| o ops IH]; intros s i r Hr.
    + exists r. cbn. repeat split; [exact Hr | lia].
    + cbn [run_all].
      destruct (students_change_black_points s (run o s)
                  (run_students_change o s) i r Hr) as (r1 & H1 & E1 & L1).
      destruct (IH (run o s) i r1 H1) as (r2 & H2 & E2 & L2).
      exists r2. repeat split; [exact H2 | congruence | lia].
  - intros o s Ho. apply students_quiet_black_points, run_students_quiet, Ho.
  - intros sid s. cbv zeta. cbn.
    repeat (split; [reflexivity |]).
    split; [apply length_fmap |].
    intros i r Hr. rewrite list_lookup_fmap, Hr. reflexivity.
Qed.

Lemma black_points_never_decrease_witness :
  let s := run (Find_or_create_student "Ann" None None) initial_db in
  students (fst (admin_redflag true 1 s)) !! 0%nat
  = Some (mk_student 1 "Ann" None None 1).
Proof.
  cbv zeta.
  destruct (proj2 (proj2 black_points_never_decrease) 1
              (run (Find_or_create_student "Ann" None None) initial_db))
    as (_ & _ & _ & _ & _ & H).
  apply (H 0%nat (mk_student 1 "Ann" None None 0)). reflexivity.
Defined.

(** ** Students *)

Lemma find_fmap_same (P : student -> bool) (g : student -> student)
    (rows : list student) :
  (forall r, P (g r) = P r) -> find P (g <$> rows) = g <$> find P rows.
Proof.
  intros H. induction rows as [| r rows IH]; [reflexivity |].
  cbn. rewrite H. destruct (P r); [reflexivity | exact IH].
Qed.

Lemma find_snoc_new (P : student -> bool) (rows : list student) (x : student) :
  find P rows = None -> P x = true -> find P (rows ++ [x]) = Some x.
Proof.
  intros N Hx. induction rows as [| r rows IH]; cbn in *.
  - rewrite Hx. reflexivity.
  - destruct (P r); [discriminate | apply IH, N].
Qed.

Lemma update_name_grade_idem name grade sid r :
  update_name_grade name grade sid (update_name_grade name grade sid r)
  = update_name_grade name grade sid r.
Proof.
  unfold update_name_grade. destruct (s_id r =? sid) eqn:E; cbn; rewrite E;
    reflexivity.
Qed.

Lemma update_name_grade_other name grade sid (rows : list student) :
  Forall (fun r => s_id r <> sid) rows ->
  update_name_grade name grade sid <$> rows = rows.
Proof.
  induction 1 as [| r rows Hr _ IH]; [reflexivity |].
  cbn. rewrite IH. unfold update_name_grade.
  destruct (s_id r =? sid) eqn:E; [apply Z.eqb_eq in E; contradiction |].
  reflexivity.
Qed.

Lemma with_students_twice rows1 seq1 rows2 seq2 s :
  with_students rows2 seq2 (with_students rows1 seq1 s)
  = with_students rows2 seq2 s.
Proof. reflexivity. Qed.

Lemma with_students_same s : with_students (students s) (students_seq s) s = s.
Proof. destruct s; reflexivity. Qed.

(** The second call after a call that went through the search by name. *)
Lemma find_by_name_or_create_again name email grade s :
  Forall (fun r => s_id r <= students_seq s) (students s) ->
  match email with
  | Some e =>
      Py.nonempty e = true ->
      find (email_is (Py.lower (Py.strip e))) (students s) = None
  | None => True
  end ->
  find_or_create_student name email grade
    (fst (find_by_name_or_create name email grade s))
  = find_by_name_or_create name email grade s.
Proof.
  intros Hok Hemail. unfold find_by_name_or_create at 1 2.
  destruct (find (name_is (Py.strip name)) (students s)) as [row |] eqn:Hname.
  - (* found by name: the state is the same, so is the call *)
    cbn [fst]. unfold find_or_create_student, find_by_name_or_create.
    rewrite Hname. destruct email as [e |]; [| reflexivity].
    destruct (Py.nonempty e) eqn:Ne; [| reflexivity].
    rewrite (Hemail eq_refl). reflexivity.
  - (* created: the new row is found, by email or by name *)
    cbn [fst].
    set (sid := students_seq s + 1).
    assert (Fresh : Forall (fun r => s_id r <> sid) (students s)).
    { eapply Forall_impl; [exact Hok |]. intros r Hr. cbn in Hr. subst sid. lia. }
    unfold find_or_create_student.
    destruct email as [e |]; [destruct (Py.nonempty e) eqn:Ne |].
    + cbn [students with_students].
      rewrite (find_snoc_new _ _ _ (Hemail eq_refl))
        by (unfold email_is; cbn; apply String.eqb_refl).
      cbn [s_id]. rewrite fmap_app, (update_name_grade_other _ _ _ _ Fresh).
      cbn. unfold update_name_grade. cbn. rewrite Z.eqb_refl. reflexivity.
    + unfold find_by_name_or_create. cbn [students with_students].
      rewrite (find_snoc_new _ _ _ Hname)
        by (unfold name_is; cbn; apply String.eqb_refl).
      reflexivity.
    + unfold find_by_name_or_create. cbn [students with_students].
      rewrite (find_snoc_new _ _ _ Hname)
        by (unfold name_is; cbn; apply String.eqb_refl).
      reflexivity.
Qed.

Lemma email_is_update key name grade sid r :
  email_is key (update_name_grade name grade sid r) = email_is key r.
Proof.
  unfold email_is, update_name_grade. destruct (s_id r =? sid); reflexivity.
Qed.

(** C8. Looking a student up or creating them is idempotent: on a database
    that satisfies its schema, a second call of [find_or_create_student]
    with the same name, email and grade returns the id of the first call
    and leaves the database as the first call left it; no second row is
    made. *)
Theorem find_or_create_student_idempotent (name : string)
    (email grade : option string) (s : db) :
  db_ok s ->
  let first := find_or_create_student name email grade s in
  let second := find_or_create_student name email grade (fst first) in
  snd second = snd first /\ fst second = fst first /\
  students (fst second) = students (fst first).
Proof.
  intros [_ Hok _ _ _]. cbv zeta.
  assert (K : find_or_create_student name email grade
                (fst (find_or_create_student name email grade s))
              = (fst (find_or_create_student name email grade s),
                 snd (find_or_create_student name email grade s))).
  { unfold find_or_create_student at 2 3 4.
    destruct email as [e |];
      [destruct (Py.nonempty e) eqn:Ne;
       [destruct (find (email_is (Py.lower (Py.strip e))) (students s))
          as [row |] eqn:He |] |].
    - (* found by email: the same row is found and gets the same values *)
      cbn [fst snd]. unfold find_or_create_student. rewrite Ne.
      cbn [students with_students].
      rewrite find_fmap_same by (intros r; apply email_is_update).
      rewrite He. cbn [fmap option_fmap option_map].
      rewrite update_name_grade_id, with_students_twice.
      rewrite <- list_fmap_compose.
      rewrite (list_fmap_ext _ (update_name_grade (Py.strip name) grade (s_id row)));
        [reflexivity |].
      intros i r _. apply update_name_grade_idem.
    - rewrite find_by_name_or_create_again; [| exact Hok |].
      + destruct (find_by_name_or_create name (Some e) grade s); reflexivity.
      + intros _. exact He.
    - rewrite find_by_name_or_create_again; [| exact Hok |].
      + destruct (find_by_name_or_create name (Some e) grade s); reflexivity.
      + intros Ne'. congruence.
    - rewrite find_by_name_or_create_again; [| exact Hok | exact I].
      destruct (find_by_name_or_create name None grade s); reflexivity. }
  rewrite K. cbn. auto.
Qed.

Lemma find_or_create_student_idempotent_witness :
  let first := find_or_create_student " Ann " (Some "Ann@School.net")
                                      (Some "Year 12") initial_db in
  let second := find_or_create_student " Ann " (Some "Ann@School.net")
                                       (Some "Year 12") (fst first) in
  snd second = snd first /\ fst second = fst first /\
  students (fst second) = students (fst first).
Proof.
  apply (find_or_create_student_idempotent " Ann " (Some "Ann@School.net")
           (Some "Year 12") initial_db db_ok_initial).
Defined.

(** ** The booking form *)

Lemma find_period_found ps pf p :
  find_period ps pf = Some (Some p) -> p ∈ ps /\ Py.int pf = Some (period p).
Proof.
  induction ps as [| x rest IH]; cbn; [discriminate |].
  destruct (Py.int pf) as [n |] eqn:E; [| discriminate].
  destruct (period x =? n) eqn:En.
  - intros H. injection H as ->. apply Z.eqb_eq in En. subst n.
    split; [left | reflexivity].
  - intros H. destruct (IH H) as [Hin Hn]. split; [right; exact Hin | exact Hn].
Qed.

Lemma find_period_error ps pf : find_period ps pf = None -> Py.int pf = None.
Proof.
  induction ps as [| x rest IH]; cbn; [discriminate |].
  destruct (Py.int pf) as [n |]; [| reflexivity].
  destruct (period x =? n); [discriminate | exact IH].
Qed.

(** What holds of the periods that cannot be booked. On a school day the
    last period of the list is not bookable, on a Thursday the first is not
    bookable either, and every other period is bookable. [submit_booking]
    inserts nothing and never answers with the success page when the period
    of the request is absent from the list of the day or marked as not
    bookable, and it renders the failure page whenever [int] reads that
    period as a number. *)
Lemma non_bookable_periods :
  (forall d : Py.date,
     Py.weekday d <= 3 ->
     let ps := get_day_periods d in
     bookable <$> last ps = Some false /\
     (Py.weekday d = 3 -> bookable <$> head ps = Some false) /\
     (forall (i : nat) (p : period_entry),
        ps !! i = Some p -> S i <> length ps ->
        ~ (Py.weekday d = 3 /\ i = 0%nat) -> bookable p = true)) /\
  (forall (e : env) (f : booking_form) (s : db) (date pf : string) (d : Py.date),
     f_booking_date f = Some date -> Py.strptime_ymd date = Some d ->
     f_period f = Some pf ->
     (forall p, p ∈ get_day_periods d -> Py.int pf = Some (period p) ->
                bookable p = false) ->
     fst (submit_booking e f s) = s /\
     (forall msg, snd (submit_booking e f s) <> render_success msg) /\
     (forall n, Py.int pf = Some n ->
        snd (submit_booking e f s) = render_fail "Missing required fields." \/
        snd (submit_booking e f s) = render_fail MSG_NOT_BOOKABLE)).
Proof.
  split.
  - intros d Hwd ps. subst ps.
    destruct (school_day_cases d Hwd) as [H | H].
    + rewrite (periods_45 d H). split; [reflexivity |].
      split; [intros H3; lia |].
      intros i p Hi Hlast _. cbn in Hlast.
      do 7 (destruct i as [| i]; [injection Hi as <-; reflexivity |]).
      destruct i; [lia | discriminate].
    + rewrite (periods_40 d H). split; [reflexivity |].
      split; [intros ->; reflexivity |].
      intros i p Hi Hlast Hfirst. cbn in Hlast.
      destruct i as [| i].
      { injection Hi as <-. cbn.
        destruct (Py.weekday d =? 3) eqn:E; [| reflexivity].
        apply Z.eqb_eq in E. tauto. }
      do 7 (destruct i as [| i]; [injection Hi as <-; reflexivity |]).
      destruct i; [lia | discriminate].
  - intros e f s date pf d Hdate Hparse Hpf Hgate.
    unfold submit_booking. rewrite Hdate, Hpf.
    destruct (f_sport f) as [sp |];
      [| repeat split; [discriminate | auto]].
    destruct (f_name f) as [name |];
      [| repeat split; [discriminate | auto]].
    destruct (negb _); [repeat split; [discriminate | auto] |].
    rewrite Hparse.
    destruct (find_period (get_day_periods d) pf) as [[p |] |] eqn:Hfind.
    + destruct (find_period_found _ _ _ Hfind) as [Hin Hint].
      rewrite (Hgate p Hin Hint). cbn. repeat split; [discriminate | auto].
    + cbn. repeat split; [discriminate | auto].
    + apply find_period_error in Hfind. cbn.
      repeat split; [discriminate | intros n Hn; congruence].
Qed.

(** C5. The defect, at one input. On Monday 2024-01-01 a request whose
    period field is "abc" names no period of the day, and the claim has
    [submit_booking] render the failure page for it. The handler evaluates
    [int(period)] without a guard: the [ValueError] leaves the handler, no
    page is rendered, nothing is stored. The neighbouring checks of the
    same handler do render the failure page: an unreadable date does, and
    so does a period that is a number outside the list. *)
Lemma submit_booking_period_not_a_number :
  let e := mk_env "2024-01-01T08:00:00" None in
  let f := mk_form (Some "2024-01-01") (Some "abc") (Some "Football")
                   (Some "Ann") None None None in
  let f_date := mk_form (Some "soon") (Some "abc") (Some "Football")
                        (Some "Ann") None None None in
  let f_99 := mk_form (Some "2024-01-01") (Some "99") (Some "Football")
                      (Some "Ann") None None None in
  Py.strptime_ymd "2024-01-01" = Some (Py.mk_date 2024 1 1) /\
  Forall (fun p => Py.int "abc" <> Some (period p))
         (get_day_periods (Py.mk_date 2024 1 1)) /\
  submit_booking e f initial_db = (initial_db, uncaught "ValueError") /\
  (forall msg, snd (submit_booking e f initial_db) <> render_fail msg) /\
  submit_booking e f_date initial_db
  = (initial_db, render_fail "Invalid date format.") /\
  submit_booking e f_99 initial_db
  = (initial_db, render_fail "Selected period cannot be booked.").
Proof.
  cbv zeta. split; [reflexivity |]. split.
  - vm_compute. repeat constructor; discriminate.
  - split; [reflexivity |]. split; [| split; reflexivity].
    intros msg. vm_compute. discriminate.
Qed.

(** Period 8 is the last one on Monday 2024-01-01. *)
Lemma non_bookable_periods_witness :
  let e := mk_env "2024-01-01T08:00:00" None in
  let f := mk_form (Some "2024-01-01") (Some "8") (Some "Football")
                   (Some "Ann") None None None in
  bookable <$> last (get_day_periods (Py.mk_date 2024 1 1)) = Some false /\
  fst (submit_booking e f initial_db) = initial_db /\
  (snd (submit_booking e f initial_db) = render_fail "Missing required fields." \/
   snd (submit_booking e f initial_db) = render_fail MSG_NOT_BOOKABLE).
Proof.
  cbv zeta. destruct non_bookable_periods as [T G]. split.
  - apply (T (Py.mk_date 2024 1 1)). vm_compute. discriminate.
  - assert (Gate : forall p, p ∈ get_day_periods (Py.mk_date 2024 1 1) ->
                     Py.int "8" = Some (period p) -> bookable p = false).
    { intros p Hp. vm_compute in Hp.
      repeat (apply elem_of_cons in Hp as [-> | Hp];
              [vm_compute; first [discriminate | reflexivity] |]).
      inversion Hp. }
    destruct (G (mk_env "2024-01-01T08:00:00" None)
                (mk_form (Some "2024-01-01") (Some "8") (Some "Football")
                         (Some "Ann") None None None)
                initial_db "2024-01-01" "8" (Py.mk_date 2024 1 1)
                eq_refl eq_refl eq_refl Gate) as (H1 & _ & H3).
    split; [exact H1 | apply (H3 8); reflexivity].
Defined.

(** ** The message after a booking *)

Lemma find_snoc (P : student -> bool) (rows : list student) (x : student) :
  find P (rows ++ [x]) =
  match find P rows with
  | Some y => Some y
  | None => if P x then Some x else None
  end.
Proof.
  induction rows as [| r rows IH]; cbn; [reflexivity |].
  destruct (P r); [reflexivity | exact IH].
Qed.

(** The helpers of a booking do not change what is read as the black points
    of any id (a row that is created starts at 0, the value read for an
    absent row). *)
Lemma leader_black_points_quiet s s' sid :
  students_quiet s s' -> leader_black_points sid s' = leader_black_points sid s.
Proof.
  unfold leader_black_points.
  intros [H1 H2 | n g k H1 H2 | row H1 H2 H3 H4]; rewrite H1.
  - reflexivity.
  - rewrite find_fmap_same
      by (intros r; cbn; rewrite update_name_grade_id; reflexivity).
    destruct (find _ (students s)) as [r |]; cbn; [| reflexivity].
    unfold update_name_grade. destruct (s_id r =? k); reflexivity.
  - rewrite find_snoc. destruct (find _ (students s)); [reflexivity |].
    destruct (s_id row =? sid); [exact H3 | reflexivity].
Qed.

Lemma leader_black_points_students s s' sid :
  students s' = students s -> leader_black_points sid s' = leader_black_points sid s.
Proof. unfold leader_black_points. intros ->. reflexivity. Qed.

Lemma blackpoint_threshold_settings s s' :
  settings s' = settings s -> blackpoint_threshold s' = blackpoint_threshold s.
Proof. unfold blackpoint_threshold, get_setting. intros ->. reflexivity. Qed.

Lemma create_booking_success e date p sp leader others s s' err :
  create_booking e date p sp leader others s = (s', (true, err)) ->
  bookings s' =
    bookings s ++ [mk_booking (bookings_seq s + 1) date p sp leader others (utcnow e)].
Proof.
  unfold create_booking.
  destruct (unique_violation date p sp (bookings s)); [discriminate |].
  destruct (excel_error e); [discriminate |].
  intros H. injection H as <- _. reflexivity.
Qed.

(** ** Numbers written and read back *)

Lemma digit_not_int_space c : Py.is_digit c = true -> Py.is_int_space c = false.
Proof. unfold Py.is_digit, Py.is_int_space. intros H. lia. Qed.

Lemma all_digits_int_lstrip s : Py.all_digits s = true -> Py.int_lstrip s = s.
Proof.
  destruct s as [| c r]; [reflexivity |]. simpl. intros H.
  apply andb_prop in H as [H _]. rewrite (digit_not_int_space c H). reflexivity.
Qed.

Lemma all_digits_int_rstrip s : Py.all_digits s = true -> Py.int_rstrip s = s.
Proof.
  induction s as [| c r IH]; [reflexivity |]. simpl. intros H.
  apply andb_prop in H as [H1 H2]. rewrite (IH H2).
  destruct r; [| reflexivity]. rewrite (digit_not_int_space c H1). reflexivity.
Qed.

Lemma count_digits_all s :
  Py.all_digits s = true -> Py.count_digits s = Z.of_nat (String.length s).
Proof.
  induction s as [| c r IH]; [reflexivity |]. simpl Py.all_digits. intros H.
  apply andb_prop in H as [H1 H2].
  cbn [Py.count_digits String.length]. rewrite H1, (IH H2). lia.
Qed.

Lemma count_digits_nonneg s : 0 <= Py.count_digits s.
Proof.
  induction s as [| c r IH]; [reflexivity |]. cbn [Py.count_digits].
  destruct (Py.is_digit c); lia.
Qed.

Lemma literal_body_digits b acc c r :
  Py.all_digits (String c r) = true ->
  Py.literal_body b acc (String c r) = Some (Py.digits_value acc (String c r)).
Proof.
  revert b acc c. induction r as [| d r IH]; intros b acc c H.
  - simpl in *. apply andb_prop in H as [-> _]. reflexivity.
  - change (Py.is_digit c && Py.all_digits (String d r) = true) in H.
    apply andb_prop in H as [H1 H2].
    change (Py.literal_body b acc (String c (String d r)))
      with (if Py.is_digit c
            then Py.literal_body true (10 * acc + Py.digit_val c) (String d r)
            else if Ascii.eqb c "_"%char && b then
              (if Py.is_digit d then Py.literal_body false acc (String d r) else None)
            else None).
    rewrite H1. rewrite (IH _ _ _ H2). reflexivity.
Qed.

Lemma digit_not_sign c :
  Py.is_digit c = true -> c <> "-"%char /\ c <> "+"%char.
Proof.
  intros H. split; intros ->; vm_compute in H; discriminate.
Qed.

(** [int] of a text of digits: the number that the digits write, when
    there are at most [MAX_STR_DIGITS] of them, and [ValueError] when there
    are more. *)
Lemma int_digits t :
  isdigit t = true ->
  Py.int t = if Py.MAX_STR_DIGITS <? Z.of_nat (String.length t) then None
             else Some (Py.digits_value 0 t).
Proof.
  unfold isdigit. intros H. apply andb_prop in H as [N D].
  unfold Py.int. rewrite (all_digits_int_lstrip t D), (all_digits_int_rstrip t D).
  rewrite (count_digits_all t D).
  destruct (Py.MAX_STR_DIGITS <? Z.of_nat (String.length t)); [reflexivity |].
  destruct t as [| c r]; [discriminate |].
  assert (Dc : Py.is_digit c = true) by (simpl in D; apply andb_prop in D; tauto).
  destruct (digit_not_sign c Dc) as [M P].
  pose proof (literal_body_digits false 0 c r D) as L.
  destruct c as [[] [] [] [] [] [] [] []]; try exact L; congruence.
Qed.

Lemma pretty_N_char_digit x :
  (x < 10)%N ->
  Py.is_digit (pretty_N_char x) = true /\
  Py.digit_val (pretty_N_char x) = Z.of_N x.
Proof.
  intros H.
  assert (C : (x = 0 \/ x = 1 \/ x = 2 \/ x = 3 \/ x = 4 \/ x = 5 \/ x = 6
               \/ x = 7 \/ x = 8 \/ x = 9)%N) by lia.
  repeat destruct C as [-> | C]; try subst x; split; reflexivity.
Qed.

Lemma pretty_N_go_digits x s :
  Py.all_digits s = true ->
  Py.all_digits (pretty_N_go x s) = true /\
  Py.digits_value 0 (pretty_N_go x s) = Py.digits_value (Z.of_N x) s /\
  ((0 < x)%N -> Py.nonempty (pretty_N_go x s) = true).
Proof.
  revert s. induction (N.lt_wf_0 x) as [x _ IH]. intros s D.
  destruct (decide (x = 0%N)) as [-> | NZ].
  - rewrite pretty_N_go_0. repeat split; [exact D | lia].
  - assert (P : (0 < x)%N) by lia.
    rewrite (pretty_N_go_step x s P).
    assert (M : (x `mod` 10 < 10)%N) by (apply N.mod_lt; discriminate).
    destruct (pretty_N_char_digit _ M) as [Dc Vc].
    assert (D' : Py.all_digits (String (pretty_N_char (x `mod` 10)) s) = true)
      by (simpl; rewrite Dc; exact D).
    destruct (IH (x `div` 10)%N (N.div_lt x 10 P eq_refl) _ D') as (A & B & C).
    split; [exact A |]. split.
    + rewrite B. simpl. rewrite Vc. f_equal.
      rewrite N2Z.inj_div, N2Z.inj_mod.
      pose proof (Z_div_mod_eq_full (Z.of_N x) 10) as Q.
      change (Z.of_N 10) with 10. symmetry. exact Q.
    + intros _. destruct (decide (x `div` 10 = 0)%N) as [E | E].
      * rewrite E, pretty_N_go_0. reflexivity.
      * apply C. apply N.neq_0_lt_0. exact E.
Qed.

Lemma pretty_pos_digits (p : positive) :
  isdigit (pretty (Z.pos p)) = true /\
  Py.digits_value 0 (pretty (Z.pos p)) = Z.pos p.
Proof.
  change (pretty (Z.pos p)) with (pretty_N_go (N.pos p) "").
  destruct (pretty_N_go_digits (N.pos p) "" eq_refl) as (A & B & C).
  unfold isdigit. rewrite A, C by reflexivity. split; [reflexivity |].
  rewrite B. reflexivity.
Qed.

(** [int(str(z))] is [z]: what [str] writes is read back by [int]. *)
Lemma int_str (z : Z) (v : string) : Py.str z = Some v -> Py.int v = Some z.
Proof.
  unfold Py.str. destruct (Py.MAX_STR_DIGITS <? _) eqn:L; [discriminate |].
  intros [= <-]. destruct z as [| p | p].
  - reflexivity.
  - destruct (pretty_pos_digits p) as [A B]. rewrite (int_digits _ A), B.
    pose proof A as A'. unfold isdigit in A'. apply andb_prop in A' as [_ D].
    rewrite <- (count_digits_all _ D), L. reflexivity.
  - destruct (pretty_pos_digits p) as [A B].
    change (pretty (Z.neg p)) with (String "-"%char (pretty (Z.pos p))) in *.
    unfold isdigit in A. apply andb_prop in A as [N D].
    unfold Py.int.
    change (Py.int_lstrip (String "-"%char (pretty (Z.pos p))))
      with (String "-"%char (pretty (Z.pos p))).
    change (Py.int_rstrip (String "-"%char (pretty (Z.pos p))))
      with (match Py.int_rstrip (pretty (Z.pos p)) with
            | EmptyString => String "-"%char EmptyString
            | r' => String "-"%char r'
            end).
    rewrite (all_digits_int_rstrip _ D).
    destruct (pretty (Z.pos p)) as [| c r] eqn:E; [discriminate |].
    rewrite L, (literal_body_digits false 0 c r D), B. reflexivity.
Qed.

(** A text of [n] digits writes a number below [10 ^ n], and [str] of a
    number below [10 ^ n] has at most [n] digits. *)
Lemma digits_value_bound acc t :
  Py.all_digits t = true -> 0 <= acc ->
  0 <= Py.digits_value acc t < (acc + 1) * 10 ^ Z.of_nat (String.length t).
Proof.
  revert acc. induction t as [| c r IH]; intros acc D A.
  - cbn. lia.
  - simpl in D. apply andb_prop in D as [Dc D].
    cbn [Py.digits_value String.length].
    assert (V : 0 <= Py.digit_val c <= 9)
      by (unfold Py.is_digit, Py.digit_val in *; lia).
    specialize (IH (10 * acc + Py.digit_val c) D ltac:(lia)).
    rewrite Nat2Z.inj_succ, Z.pow_succ_r by lia.
    assert (P : 0 < 10 ^ Z.of_nat (String.length r))
      by (apply Z.pow_pos_nonneg; lia).
    nia.
Qed.

Lemma pretty_N_go_count (n : nat) (x : N) (s : string) :
  (Z.of_N x < 10 ^ Z.of_nat n) ->
  Py.count_digits (pretty_N_go x s) <= Z.of_nat n + Py.count_digits s.
Proof.
  revert x s. induction n as [| n IH]; intros x s H.
  - assert (x = 0%N) as -> by (cbn in H; lia). rewrite pretty_N_go_0. lia.
  - destruct (decide (x = 0%N)) as [-> | NZ].
    + rewrite pretty_N_go_0. lia.
    + rewrite pretty_N_go_step by lia.
      rewrite Nat2Z.inj_succ, Z.pow_succ_r in H by lia.
      assert (Q : Z.of_N (x `div` 10) < 10 ^ Z.of_nat n).
      { rewrite N2Z.inj_div. change (Z.of_N 10) with 10.
        apply Z.div_lt_upper_bound; lia. }
      specialize (IH _ (String (pretty_N_char (x `mod` 10)) s) Q).
      cbn [Py.count_digits] in IH.
      destruct (Py.is_digit (pretty_N_char (x `mod` 10))); lia.
Qed.

Lemma str_digits t :
  isdigit t = true -> Z.of_nat (String.length t) <= Py.MAX_STR_DIGITS ->
  Py.str (Py.digits_value 0 t) = Some (pretty (Py.digits_value 0 t)).
Proof.
  intros I L. pose proof I as I'. unfold isdigit in I'.
  apply andb_prop in I' as [N D].
  pose proof (digits_value_bound 0 t D ltac:(lia)) as B.
  unfold Py.str.
  assert (C : Py.count_digits (pretty (Py.digits_value 0 t))
              <= Z.of_nat (String.length t)).
  { destruct (Py.digits_value 0 t) as [| p | p] eqn:E; [| | lia].
    - destruct t; [discriminate |].
      change (Py.count_digits (pretty 0)) with 1. cbn [String.length]. lia.
    - change (pretty (Z.pos p)) with (pretty_N_go (N.pos p) "").
      pose proof (pretty_N_go_count (String.length t) (N.pos p) "") as Q.
      cbn [Py.count_digits] in Q. rewrite Z.add_0_r in Q. apply Q.
      change (Z.of_N (N.pos p)) with (Z.pos p). lia. }
  destruct (Py.MAX_STR_DIGITS <? _) eqn:F; [lia | reflexivity].
Qed.

(** ** Settings *)

Lemma submit_booking_settings e f s :
  settings (fst (submit_booking e f s)) = settings s.
Proof.
  destruct (submit_booking_state e f s) as [-> | (name & email & grade & H)];
    [reflexivity |].
  cbv zeta in H.
  pose proof (find_or_create_student_frame name email grade s) as (_ & _ & F).
  destruct H as [-> | (date & n & sp & others & ->)]; [exact F |].
  pose proof (create_booking_frame e date n sp
                (snd (find_or_create_student name email grade s)) others
                (fst (find_or_create_student name email grade s))) as (_ & _ & G).
  cbv zeta in G. rewrite G. exact F.
Qed.

Lemma set_setting_settings key value s :
  settings (set_setting key value s) = settings s \/
  exists v, Py.str value = Some v /\
            settings (set_setting key value s) = <[key := v]> (settings s).
Proof.
  unfold set_setting. destruct (Py.str value) as [v |]; [| left; reflexivity].
  right. exists v. split; reflexivity.
Qed.

(** Every stored value was written by [str] of a number. *)
Lemma settings_written s :
  reachable s ->
  forall k v, settings s !! k = Some v -> exists z : Z, Py.str z = Some v.
Proof.
  induction 1 as [| s o R IH]; intros k v.
  - unfold initial_db, init_db, empty_db. cbn [settings].
    rewrite lookup_empty. cbn [settings]. intros H.
    apply lookup_insert_Some in H as [[_ <-] | [_ H]].
    + exists BLACKPOINTS_DEFAULT_THRESHOLD. reflexivity.
    + rewrite lookup_empty in H. discriminate.
  - assert (W : forall (key : string) (z : Z),
                settings (set_setting key z s) !! k = Some v ->
                exists z : Z, Py.str z = Some v).
    { intros key z H.
      destruct (set_setting_settings key z s) as [E | (w & Sw & E)];
        rewrite E in H; [exact (IH k v H) |].
      apply lookup_insert_Some in H as [[_ <-] | [_ H]];
        [exists z; exact Sw | exact (IH k v H)]. }
    destruct o as [e f | e date p sp leader others | name email grade
                   | li bid | li sid | li thr | key value]; cbn [run].
    + rewrite submit_booking_settings. apply IH.
    + pose proof (create_booking_frame e date p sp leader others s) as (_ & _ & F).
      cbv zeta in F. rewrite F. apply IH.
    + pose proof (find_or_create_student_frame name email grade s) as (_ & _ & F).
      cbv zeta in F. rewrite F. apply IH.
    + destruct li; cbn; apply IH.
    + destruct li; cbn; apply IH.
    + destruct li; [| cbn; apply IH].
      unfold admin_settings, admin_required.
      destruct thr as [t |]; [| cbn; apply IH].
      destruct (Py.nonempty t && isdigit t); [| cbn; apply IH].
      destruct (Py.int t) as [n |]; [| cbn; apply IH].
      cbn [fst]. apply W.
    + apply W.
Qed.

Lemma threshold_readable s :
  reachable s -> exists z : Z, blackpoint_threshold s = Some z.
Proof.
  intros R. unfold blackpoint_threshold, get_setting.
  destruct (settings s !! "blackpoint_threshold") as [v |] eqn:E.
  - destruct (settings_written s R _ _ E) as [z Sz].
    exists z. apply int_str, Sz.
  - exists BLACKPOINTS_DEFAULT_THRESHOLD. reflexivity.
Qed.

(** X1. Whatever was done before through the operations of the program,
    the stored threshold can be read as a number (it was written by [str]
    of a number of at most 4300 digits), and [submit_booking] lets an
    exception escape only for a period field that [int] refuses: a text
    that is no decimal literal between blanks, or one of more than 4300
    digits. *)
Theorem submit_booking_uncaught_only_for_period (s : db) :
  reachable s ->
  (exists z : Z, blackpoint_threshold s = Some z) /\
  (forall (e : env) (f : booking_form) (exc : string),
     snd (submit_booking e f s) = uncaught exc ->
     exists pf, f_period f = Some pf /\ Py.int pf = None).
Proof.
  intros R. split; [exact (threshold_readable s R) |].
  intros e f exc. unfold submit_booking.
  destruct (f_booking_date f) as [date |]; [| discriminate].
  destruct (f_period f) as [pf |]; [| discriminate].
  destruct (f_sport f) as [sp |]; [| discriminate].
  destruct (f_name f) as [name |]; [| discriminate].
  destruct (negb _); [discriminate |].
  destruct (Py.strptime_ymd date) as [bdate |]; [| discriminate].
  destruct (find_period (get_day_periods bdate) pf) as [[p |] |] eqn:FP;
    [| discriminate |].
  2: { intros _. exists pf. split; [reflexivity |].
       exact (find_period_error _ _ FP). }
  destruct (negb (bookable p)); [discriminate |].
  destruct (ENFORCE_SCHOOL_EMAIL && _ && _); [discriminate |].
  destruct (find_or_create_student _ _ _ s) as [s1 leader] eqn:FC.
  destruct (Py.int pf) as [n |] eqn:I;
    [| intros _; exists pf; split; [reflexivity | exact I]].
  destruct (create_booking e date n sp leader _ s1) as [s2 [success err]] eqn:CB.
  destruct success.
  - assert (R2 : reachable s2).
    { pose proof (reachable_step _ (Create_booking e date n sp leader
                                      (default "" (f_others f)))
                   (reachable_step _ (Find_or_create_student name
                        (Some (Py.lower (Py.strip (default "" (f_email f)))))
                        (normalize_grade_input (default "" (f_grade f)))) R)) as Q.
      cbn [run] in Q. rewrite FC in Q. cbn [fst] in Q. rewrite CB in Q. exact Q. }
    destruct (threshold_readable s2 R2) as [z ->].
    destruct (z <=? _); discriminate.
  - destruct (bool_decide _); discriminate.
Qed.

(** After the settings form stored "007" the threshold is readable. A
    period written with the separator FS before the digit is refused by
    [int], and the exception leaves the handler. *)
Lemma submit_booking_uncaught_only_for_period_witness :
  (exists z : Z,
     blackpoint_threshold
       (run (Admin_settings true (Some "007")) initial_db) = Some z) /\
  Py.int (String (Py.chr 28) "2") = None /\
  snd (submit_booking (mk_env "2024-01-01T08:00:00" None)
         (mk_form (Some "2024-01-01") (Some (String (Py.chr 28) "2"))
                  (Some "Football") (Some "Ann") None None None)
         initial_db) = uncaught "ValueError".
Proof.
  split; [| split; reflexivity].
  apply (proj1 (submit_booking_uncaught_only_for_period _
                  (reachable_step _ (Admin_settings true (Some "007"))
                     reachable_init))).
Defined.

(** X2. The settings form of the admin page, for a logged-in session.
    A threshold written with at most 4300 ASCII digits is stored, as the
    text of its number (leading zeros are dropped), and is what
    [submit_booking] reads afterwards. With more than 4300 digits [int]
    raises: [ValueError] leaves the handler and nothing is stored. Any
    other ASCII entry (empty, signed, with blanks or letters) and a missing
    field change nothing. Other keys and the tables are never touched, and
    without a session nothing is stored. *)
Theorem admin_settings_round_trip (thr : option string) (s : db) :
  let out := admin_settings true thr s in
  (forall t, thr = Some t -> isdigit t = true ->
     Z.of_nat (String.length t) <= 4300 ->
     snd out = redirect "admin_dashboard" /\
     blackpoint_threshold (fst out) = Some (Py.digits_value 0 t) /\
     settings (fst out) !! "blackpoint_threshold"
       = Some (pretty (Py.digits_value 0 t))) /\
  (forall t, thr = Some t -> isdigit t = true ->
     4300 < Z.of_nat (String.length t) ->
     out = (s, uncaught "ValueError")) /\
  (forall t, thr = Some t -> Py.is_ascii t = true -> isdigit t = false ->
     out = (s, redirect "admin_dashboard")) /\
  (thr = None -> out = (s, redirect "admin_dashboard")) /\
  (forall k, k <> "blackpoint_threshold" ->
     settings (fst out) !! k = settings s !! k) /\
  students (fst out) = students s /\ bookings (fst out) = bookings s /\
  admin_settings false thr s = (s, redirect "admin_login").
Proof.
  cbv zeta. unfold admin_settings, admin_required.
  destruct thr as [t |].
  - destruct (isdigit t) eqn:D.
    + assert (N : Py.nonempty t = true)
        by (unfold isdigit in D; apply andb_prop in D; tauto).
      rewrite N, (int_digits t D). cbn [andb].
      unfold Py.MAX_STR_DIGITS.
      destruct (4300 <? Z.of_nat (String.length t)) eqn:L.
      * cbn [fst snd]. split; [intros t' [= <-] _ L'; lia |].
        split; [intros; reflexivity |].
        split; [intros t' [= <-] _ D'; congruence |].
        split; [discriminate |].
        repeat split.
      * assert (St : Py.str (Py.digits_value 0 t)
                     = Some (pretty (Py.digits_value 0 t)))
          by (apply str_digits; [exact D | unfold Py.MAX_STR_DIGITS; lia]).
        unfold set_setting. rewrite St. cbn [fst snd settings students bookings].
        split.
        { intros t' [= <-] _ _. split; [reflexivity |]. split.
          - unfold blackpoint_threshold, get_setting. cbn [settings].
            rewrite lookup_insert_eq. apply int_str, St.
          - apply lookup_insert_eq. }
        split; [intros t' [= <-] _ L'; lia |].
        split; [intros t' [= <-] _ D'; congruence |].
        split; [discriminate |].
        split; [| repeat split].
        intros k K. apply lookup_insert_ne. congruence.
    + rewrite andb_false_r. cbn [fst snd].
      split; [intros t' [= <-] D'; congruence |].
      split; [intros t' [= <-] D'; congruence |].
      repeat split.
  - cbn [fst snd]. split; [discriminate |]. split; [discriminate |].
    split; [discriminate |]. repeat split.
Qed.

(** The threshold "007" is stored as "7"; a threshold of 4301 digits makes
    the handler fail. *)
Lemma admin_settings_round_trip_witness :
  (snd (admin_settings true (Some "007") initial_db) = redirect "admin_dashboard" /\
   blackpoint_threshold (fst (admin_settings true (Some "007") initial_db)) = Some 7 /\
   settings (fst (admin_settings true (Some "007") initial_db))
     !! "blackpoint_threshold" = Some "7") /\
  admin_settings true (Some " 7") initial_db = (initial_db, redirect "admin_dashboard").
Proof.
  split.
  - apply (proj1 (admin_settings_round_trip (Some "007") initial_db) "007");
      [reflexivity | reflexivity | cbn; lia].
  - apply (proj1 (proj2 (proj2 (admin_settings_round_trip (Some " 7") initial_db)))
             " 7"); reflexivity.
Defined.

(** X3. [init_db] runs every time the program starts. On a database that
    is already there it keeps the rows of the tables and every setting that
    is stored; the threshold that [submit_booking] reads is the same before
    and after; and running it twice is running it once. *)
Theorem init_db_keeps_data (s : db) :
  init_db (init_db s) = init_db s /\
  students (init_db s) = students s /\
  students_seq (init_db s) = students_seq s /\
  bookings (init_db s) = bookings s /\
  bookings_seq (init_db s) = bookings_seq s /\
  blackpoint_threshold (init_db s) = blackpoint_threshold s /\
  (forall k v, get_setting k s = Some v -> get_setting k (init_db s) = Some v) /\
  (forall k, k <> "blackpoint_threshold" ->
     get_setting k (init_db s) = get_setting k s).
Proof.
  destruct (settings s !! "blackpoint_threshold") as [v |] eqn:E.
  - assert (I : init_db s = s) by (unfold init_db; rewrite E; reflexivity).
    rewrite !I. repeat split; try reflexivity. tauto.
  - assert (I : init_db s =
                mk_db (<["blackpoint_threshold" :=
                           pretty BLACKPOINTS_DEFAULT_THRESHOLD]> (settings s))
                      (students s) (students_seq s) (bookings s) (bookings_seq s))
      by (unfold init_db; rewrite E; reflexivity).
    rewrite I. unfold blackpoint_threshold, get_setting.
    cbn [settings students students_seq bookings bookings_seq].
    rewrite lookup_insert_eq, E.
    split; [unfold init_db; cbn [settings]; rewrite lookup_insert_eq; reflexivity |].
    repeat split; try reflexivity.
    + intros k v' H. rewrite lookup_insert_ne; [exact H | congruence].
    + intros k K. apply lookup_insert_ne. congruence.
Qed.

(** ** The availability check and the booking form *)

Lemma unique_violation_is_slot_taken date p sp s :
  unique_violation date p sp (bookings s) = is_slot_taken date p sp s.
Proof.
  apply Bool.eq_iff_eq_true.
  rewrite unique_violation_spec, is_slot_taken_spec. reflexivity.
Qed.

(** X4. The availability check and the form handler agree. When
    [api_check_slot] answers [ok] and a name is given, [submit_booking] with
    the same date, period and sport stores exactly one new row, for that
    slot and for the student the form resolves to; when it answers anything
    else, or when the name is missing, [submit_booking] leaves the bookings
    as they are. *)
Theorem api_check_slot_agrees_with_submit_booking
    (e : env) (f : booking_form) (s : db) :
  let answer := api_check_slot (f_booking_date f) (f_period f) (f_sport f) s in
  let s' := fst (submit_booking e f s) in
  (answer = jsonify true None -> Py.truthy (f_name f) = true ->
     exists date pf sp n,
       f_booking_date f = Some date /\ f_period f = Some pf /\
       f_sport f = Some sp /\ Py.int pf = Some n /\
       bookings s' =
         bookings s ++
         [mk_booking (bookings_seq s + 1) date n sp (leader_of f s)
                     (default "" (f_others f)) (utcnow e)]) /\
  (answer <> jsonify true None -> bookings s' = bookings s) /\
  (Py.truthy (f_name f) = false -> bookings s' = bookings s).
Proof.
  cbv zeta. unfold api_check_slot, submit_booking, leader_of.
  destruct (f_booking_date f) as [date |];
    [| split; [discriminate | split; reflexivity]].
  destruct (f_period f) as [pf |];
    [| split; [discriminate | split; reflexivity]].
  destruct (f_sport f) as [sp |];
    [| split; [discriminate | split; reflexivity]].
  destruct (f_name f) as [name |];
    [| split; [intros _ T; discriminate T | split; reflexivity]].
  cbn [Py.truthy from_option id].
  destruct (Py.nonempty date), (Py.nonempty pf), (Py.nonempty sp),
    (Py.nonempty name); cbn [andb negb fst];
    try (split; [intros A T; first [discriminate A | discriminate T]
                | split; reflexivity]).
  destruct (Py.strptime_ymd date) as [bdate |];
    [| split; [discriminate | split; reflexivity]].
  destruct (find_period (get_day_periods bdate) pf) as [[p |] |] eqn:FP;
    [| split; [discriminate | split; reflexivity]
     | split; [discriminate | split; reflexivity]].
  destruct (find_period_found _ _ _ FP) as [_ I]. rewrite I.
  destruct (bookable p); cbn [negb];
    [| split; [discriminate | split; reflexivity]].
  unfold ENFORCE_SCHOOL_EMAIL. cbn [andb].
  pose proof (find_or_create_student_frame name
                (Some (Py.lower (Py.strip (default "" (f_email f)))))
                (normalize_grade_input (default "" (f_grade f))) s)
    as (B & BS & _). cbv zeta in B, BS.
  destruct (find_or_create_student name _ _ s) as [s1 leader].
  cbn [fst snd] in *.
  unfold create_booking.
  rewrite B, <- (unique_violation_is_slot_taken date (period p) sp s).
  destruct (unique_violation date (period p) sp (bookings s)).
  - rewrite bool_decide_eq_true_2 by reflexivity. cbn [fst].
    split; [discriminate | split; [intros _; exact B | discriminate]].
  - assert (Q : forall r : response,
               bookings (fst (with_bookings
                 (bookings s ++
                  [mk_booking (bookings_seq s1 + 1) date (period p) sp leader
                     (default "" (f_others f)) (utcnow e)])
                 (bookings_seq s1 + 1) s1, r))
               = bookings s ++
                 [mk_booking (bookings_seq s + 1) date (period p) sp leader
                    (default "" (f_others f)) (utcnow e)])
      by (intros r; rewrite BS; reflexivity).
    split; [| split; [congruence | discriminate]].
    intros _ _. exists date, pf, sp, (period p).
    do 3 (split; [reflexivity |]). split; [exact I |].
    destruct (excel_error e) as [msg |]; cbv beta iota.
    + destruct (bool_decide _); apply Q.
    + destruct (blackpoint_threshold _) as [t |]; [| apply Q].
      destruct (t <=? _); apply Q.
Qed.

(** X5. What a refusal leaves behind. When the availability check says
    that the slot is taken, [submit_booking] with a name answers with the
    slot-taken page and stores no booking, but the student of the form has
    been looked up first: the database is the one [find_or_create_student]
    leaves, with the student renamed or created. When the check refuses for
    any other reason, [submit_booking] changes nothing at all. *)
Theorem submit_booking_refused (e : env) (f : booking_form) (s : db) :
  let answer := api_check_slot (f_booking_date f) (f_period f) (f_sport f) s in
  (answer = jsonify false (Some "slot already taken") ->
   Py.truthy (f_name f) = true ->
     submit_booking e f s =
       (fst (find_or_create_student (default "" (f_name f))
               (Some (Py.lower (Py.strip (default "" (f_email f)))))
               (normalize_grade_input (default "" (f_grade f))) s),
        render_fail "Slot already taken. Try a different period or sport.") /\
     bookings (fst (submit_booking e f s)) = bookings s /\
     students_quiet s (fst (submit_booking e f s))) /\
  (forall msg, answer = jsonify false (Some msg) ->
     msg <> "slot already taken" -> fst (submit_booking e f s) = s).
Proof.
  cbv zeta.
  pose proof (proj1 (submit_booking_changes e f s)) as SQ. revert SQ.
  unfold api_check_slot, submit_booking.
  destruct (f_booking_date f) as [date |];
    [| intros _; split; [discriminate | reflexivity]].
  destruct (f_period f) as [pf |];
    [| intros _; split; [discriminate | reflexivity]].
  destruct (f_sport f) as [sp |];
    [| intros _; split; [discriminate | reflexivity]].
  destruct (f_name f) as [name |];
    [| intros _; split; [intros _ T; discriminate T | reflexivity]].
  cbn [Py.truthy from_option id].
  destruct (Py.nonempty date), (Py.nonempty pf), (Py.nonempty sp),
    (Py.nonempty name); cbn [andb negb fst];
    try (intros _; split; [intros A T; first [discriminate A | discriminate T]
                          | reflexivity]).
  destruct (Py.strptime_ymd date) as [bdate |];
    [| intros _; split; [discriminate | reflexivity]].
  destruct (find_period (get_day_periods bdate) pf) as [[p |] |] eqn:FP;
    [| intros _; split; [discriminate | reflexivity]
     | intros _; split; [discriminate | reflexivity]].
  destruct (find_period_found _ _ _ FP) as [_ I]. rewrite I.
  destruct (bookable p); cbn [negb];
    [| intros _; split; [discriminate | reflexivity]].
  unfold ENFORCE_SCHOOL_EMAIL. cbn [andb].
  pose proof (find_or_create_student_frame name
                (Some (Py.lower (Py.strip (default "" (f_email f)))))
                (normalize_grade_input (default "" (f_grade f))) s)
    as (B & BS & _). cbv zeta in B, BS.
  destruct (find_or_create_student name _ _ s) as [s1 leader].
  cbn [fst snd] in *.
  unfold create_booking.
  rewrite B, <- (unique_violation_is_slot_taken date (period p) sp s).
  destruct (unique_violation date (period p) sp (bookings s)).
  - rewrite bool_decide_eq_true_2 by reflexivity. cbn [fst]. intros SQ.
    split; [intros _ _; repeat split; [exact B | exact SQ] |].
    intros msg [= <-] M. congruence.
  - intros _. split; discriminate.
Qed.

(** Period 2 of Monday 2024-01-01 is booked for football by Ann; Bob asks
    for the same slot. He is told that it is taken, and is a student of the
    database from then on. *)
Lemma submit_booking_refused_witness :
  let e := mk_env "2024-01-01T08:00:00" None in
  let ann := mk_form (Some "2024-01-01") (Some "2") (Some "Football")
                     (Some "Ann") None None None in
  let bob := mk_form (Some "2024-01-01") (Some "2") (Some "Football")
                     (Some "Bob") None None None in
  let s := fst (submit_booking e ann initial_db) in
  submit_booking e bob s =
    (fst (find_or_create_student "Bob" (Some "") None s),
     render_fail "Slot already taken. Try a different period or sport.") /\
  bookings (fst (submit_booking e bob s)) = bookings s /\
  s_name <$> students (fst (submit_booking e bob s)) = ["Ann"; "Bob"].
Proof.
  cbv zeta.
  pose proof (proj1 (submit_booking_refused
    (mk_env "2024-01-01T08:00:00" None)
    (mk_form (Some "2024-01-01") (Some "2") (Some "Football")
             (Some "Bob") None None None)
    (fst (submit_booking (mk_env "2024-01-01T08:00:00" None)
            (mk_form (Some "2024-01-01") (Some "2") (Some "Football")
                     (Some "Ann") None None None) initial_db)))
    ltac:(vm_compute; reflexivity) ltac:(reflexivity)) as (A & B & _).
  split; [exact A |]. split; [exact B |].
  vm_compute. reflexivity.
Defined.

(** ** The life of a slot *)

Lemma filter_all {A} (P : A -> Prop) `{forall x, Decision (P x)} (l : list A) :
  (forall x, x ∈ l -> P x) -> filter P l = l.
Proof.
  induction l as [| a l IH]; intros H0; [reflexivity |].
  rewrite filter_cons_True by (apply H0; left).
  f_equal. apply IH. intros x Hx. apply H0. right. exact Hx.
Qed.

Lemma create_booking_free e date p sp leader others s :
  is_slot_taken date p sp s = false ->
  fst (create_booking e date p sp leader others s) =
    with_bookings
      (bookings s ++ [mk_booking (bookings_seq s + 1) date p sp leader others (utcnow e)])
      (bookings_seq s + 1) s.
Proof.
  intros T. unfold create_booking.
  rewrite unique_violation_is_slot_taken, T.
  destruct (excel_error e); reflexivity.
Qed.

Lemma same_slot_refl date p sp id leader others now :
  same_slot date p sp (mk_booking id date p sp leader others now) = true.
Proof.
  unfold same_slot. cbn. rewrite !String.eqb_refl, Z.eqb_refl. reflexivity.
Qed.

(** X6. A slot from booking to deletion. Once [create_booking] has stored a
    row for a free slot (whether or not the spreadsheet could be written),
    the slot is taken, any further [create_booking] for it answers
    [(False, "slot_taken")] and changes nothing, and every other slot is as
    free as before. Deleting the row through [admin_delete] gives the
    bookings of before, with the slot free again. *)
Theorem slot_taken_until_deleted (e : env) (date : string) (p : Z) (sp : string)
    (leader : Z) (others : string) (s : db) :
  db_ok s ->
  is_slot_taken date p sp s = false ->
  let s1 := fst (create_booking e date p sp leader others s) in
  let s2 := fst (admin_delete true (bookings_seq s + 1) s1) in
  is_slot_taken date p sp s1 = true /\
  (forall e' leader' others',
     create_booking e' date p sp leader' others' s1
     = (s1, (false, Some "slot_taken"))) /\
  (forall date' p' sp',
     (date', p', sp') <> (date, p, sp) ->
     is_slot_taken date' p' sp' s1 = is_slot_taken date' p' sp' s) /\
  bookings s2 = bookings s /\
  is_slot_taken date p sp s2 = false.
Proof.
  intros OK T. cbv zeta. rewrite (create_booking_free e _ _ _ leader others s T).
  set (row := mk_booking (bookings_seq s + 1) date p sp leader others (utcnow e)).
  assert (T1 : is_slot_taken date p sp
                 (with_bookings (bookings s ++ [row]) (bookings_seq s + 1) s) = true).
  { apply is_slot_taken_spec. exists row. cbn.
    split; [apply elem_of_app; right; left |]. repeat split. }
  assert (D : filter (fun b => b_id b ≠ bookings_seq s + 1) (bookings s ++ [row])
              = bookings s).
  { rewrite filter_app.
    rewrite (filter_all _ (bookings s)).
    - rewrite filter_cons_False by (cbn; intros H; apply H; reflexivity).
      rewrite filter_nil. apply app_nil_r.
    - intros b Hb. pose proof (booking_ids_issued s OK) as I.
      rewrite Forall_forall in I. specialize (I b Hb). cbn beta in I. lia. }
  split; [exact T1 |]. split; [| split; [| split]].
  - intros e' leader' others'. unfold create_booking.
    rewrite unique_violation_is_slot_taken, T1. reflexivity.
  - intros date' p' sp' NE. unfold is_slot_taken. cbn [bookings with_bookings].
    rewrite filter_app.
    rewrite (filter_cons_False _ row []).
    + rewrite filter_nil, app_nil_r. reflexivity.
    + intros H. apply same_slot_spec in H. apply NE. symmetry. exact H.
  - cbn. exact D.
  - unfold admin_delete, admin_required. cbn [fst].
    unfold is_slot_taken in *. cbn [bookings with_bookings]. rewrite D. exact T.
Qed.

Lemma slot_taken_until_deleted_witness :
  let e := mk_env "2024-01-01T08:00:00" (Some "PermissionError") in
  let s1 := fst (create_booking e "2024-01-01" 2 "Football" 1 "" initial_db) in
  is_slot_taken "2024-01-01" 2 "Football" s1 = true /\
  bookings (fst (admin_delete true 1 s1)) = [].
Proof.
  cbv zeta.
  pose proof (slot_taken_until_deleted
                (mk_env "2024-01-01T08:00:00" (Some "PermissionError"))
                "2024-01-01" 2 "Football" 1 "" initial_db
                db_ok_initial eq_refl) as (A & _ & _ & B & _).
  split; [exact A | exact B].
Defined.

(** ** Identifiers *)

Lemma fmap_key_inj {A} (key : A -> Z) (l : list A) (x y : A) :
  NoDup (key <$> l) -> x ∈ l -> y ∈ l -> key x = key y -> x = y.
Proof.
  induction l as [| a l IH]; intros N Hx Hy E; [inversion Hx |].
  rewrite fmap_cons in N. apply NoDup_cons in N as [Na N].
  apply elem_of_cons in Hx as [-> | Hx]; apply elem_of_cons in Hy as [-> | Hy].
  - reflexivity.
  - exfalso. apply Na. rewrite E. apply list_elem_of_fmap. eauto.
  - exfalso. apply Na. rewrite <- E. apply list_elem_of_fmap. eauto.
  - apply IH; assumption.
Qed.

Lemma bookings_change_ids s s' :
  bookings_change s s' ->
  bookings_seq s <= bookings_seq s' /\
  (forall b, b ∈ bookings s' -> b ∈ bookings s \/ bookings_seq s < b_id b).
Proof.
  intros [K KS | row K _ I KS | bid K KS]; rewrite K, KS.
  - split; [lia | auto].
  - split; [lia |]. intros b Hb. apply elem_of_app in Hb as [Hb | Hb]; [auto |].
    apply list_elem_of_singleton in Hb as ->. right. lia.
  - split; [lia |]. intros b Hb. apply list_elem_of_filter in Hb as [_ Hb]. auto.
Qed.

Lemma students_change_ids s s' :
  students_change s s' ->
  exists new, s_id <$> students s' = (s_id <$> students s) ++ new.
Proof.
  intros [[K _ | name grade sid K _ | row K _ _ _] | (sid & K & _)]; rewrite K.
  - exists []. rewrite app_nil_r. reflexivity.
  - exists []. rewrite app_nil_r. apply fmap_ids_same, update_name_grade_id.
  - exists [s_id row]. rewrite fmap_app. reflexivity.
  - exists []. rewrite app_nil_r. apply fmap_ids_same, add_black_point_id.
Qed.

Lemma run_all_ids (ops : list operation) (s : db) :
  db_ok s ->
  db_ok (run_all ops s) /\
  bookings_seq s <= bookings_seq (run_all ops s) /\
  (forall b, b ∈ bookings (run_all ops s) ->
             b ∈ bookings s \/ bookings_seq s < b_id b) /\
  (exists new, s_id <$> students (run_all ops s) = (s_id <$> students s) ++ new).
Proof.
  revert s. induction ops as [| o ops IH]; intros s OK; cbn [run_all].
  - split; [exact OK |]. split; [lia |]. split; [auto |].
    exists []. rewrite app_nil_r. reflexivity.
  - destruct (IH (run o s) (db_ok_run o s OK)) as (OK' & S' & B' & (new' & N')).
    destruct (bookings_change_ids _ _ (run_bookings_change o s)) as [S1 B1].
    destruct (students_change_ids _ _ (run_students_change o s)) as [new1 N1].
    split; [exact OK' |]. split; [lia |]. split.
    + intros b Hb. destruct (B' b Hb) as [H | H].
      * destruct (B1 b H) as [H1 | H1]; [auto | right; lia].
      * right. lia.
    + exists (new1 ++ new'). rewrite N', N1, app_assoc. reflexivity.
Qed.

(** X7. Identifiers are never handed out twice. Along any sequence of
    operations the counter of [bookings] does not go down, a booking found
    later is either a row that was there, unchanged, or carries a number
    above the counter of before, so that the number of a deleted booking is
    not used again; and the students of before keep their place and their
    number, no student row is ever removed. *)
Theorem ids_never_reused (ops : list operation) (s : db) :
  db_ok s ->
  let s' := run_all ops s in
  bookings_seq s <= bookings_seq s' /\
  (forall b', b' ∈ bookings s' -> b' ∈ bookings s \/ bookings_seq s < b_id b') /\
  (forall b b', b ∈ bookings s -> b' ∈ bookings s' -> b_id b' = b_id b -> b' = b) /\
  (forall bid, bid <= bookings_seq s -> bid ∉ b_id <$> bookings s ->
               bid ∉ b_id <$> bookings s') /\
  (exists new, s_id <$> students s' = (s_id <$> students s) ++ new).
Proof.
  intros OK. cbv zeta.
  destruct (run_all_ids ops s OK) as (_ & S & B & N).
  pose proof (booking_ids_issued s OK) as I. rewrite Forall_forall in I.
  split; [exact S |]. split; [exact B |]. split; [| split; [| exact N]].
  - intros b b' Hb Hb' E. destruct (B b' Hb') as [H | H].
    + apply (fmap_key_inj b_id (bookings s)); [apply OK | | |]; assumption.
    + specialize (I b Hb). cbn beta in I. lia.
  - intros bid L NI HI. apply list_elem_of_fmap in HI as (b' & -> & Hb').
    destruct (B b' Hb') as [H | H]; [| lia].
    apply NI. apply list_elem_of_fmap. eauto.
Qed.

(** Booking 1 is made and deleted; the next booking is number 2. *)
Lemma ids_never_reused_witness :
  let e := mk_env "2024-01-01T08:00:00" None in
  let s := run_all [Create_booking e "2024-01-01" 2 "Football" 1 "";
                    Admin_delete true 1] initial_db in
  let s' := run_all [Create_booking e "2024-01-01" 2 "Football" 1 ""] s in
  bookings s = [] /\ b_id <$> bookings s' = [2] /\
  (exists new, s_id <$> students s' = (s_id <$> students s) ++ new).
Proof.
  cbv zeta. split; [reflexivity |]. split; [reflexivity |].
  apply (ids_never_reused
    [Create_booking (mk_env "2024-01-01T08:00:00" None) "2024-01-01" 2 "Football" 1 ""]
    (run_all [Create_booking (mk_env "2024-01-01T08:00:00" None)
                "2024-01-01" 2 "Football" 1 "";
              Admin_delete true 1] initial_db)).
  apply (proj1 (run_all_ids _ _ db_ok_initial)).
Defined.

(** ** What the routes store *)

Lemma find_elem_of {A} (P : A -> bool) (l : list A) (x : A) :
  find P l = Some x -> x ∈ l /\ P x = true.
Proof.
  intros H. apply find_some in H as [H1 H2]. rewrite list_elem_of_In. auto.
Qed.

Lemma find_by_name_or_create_id name email grade s :
  snd (find_by_name_or_create name email grade s)
  ∈ s_id <$> students (fst (find_by_name_or_create name email grade s)).
Proof.
  unfold find_by_name_or_create.
  destruct (find (name_is (Py.strip name)) (students s)) as [row |] eqn:F.
  - cbn [fst snd]. apply find_elem_of in F as [F _].
    apply list_elem_of_fmap. eauto.
  - cbn [fst snd with_students students]. rewrite fmap_app.
    apply elem_of_app. right. left.
Qed.

(** The number that [find_or_create_student] returns is the number of a
    row of the table it leaves. *)
Lemma find_or_create_student_id name email grade s :
  snd (find_or_create_student name email grade s)
  ∈ s_id <$> students (fst (find_or_create_student name email grade s)).
Proof.
  unfold find_or_create_student.
  destruct email as [e |]; [| apply find_by_name_or_create_id].
  destruct (Py.nonempty e); [| apply find_by_name_or_create_id].
  destruct (find _ (students s)) as [row |] eqn:F;
    [| apply find_by_name_or_create_id].
  cbn [fst snd with_students students].
  rewrite (fmap_ids_same _ _ (update_name_grade_id _ _ _)).
  apply find_elem_of in F as [F _]. apply list_elem_of_fmap. eauto.
Qed.

Lemma leader_known_spec s b :
  leader_known s b = true <-> leader_student_id b ∈ s_id <$> students s.
Proof.
  unfold leader_known. rewrite existsb_exists. split.
  - intros (r & Hr & E). apply Z.eqb_eq in E. rewrite <- E.
    apply list_elem_of_fmap. exists r. rewrite list_elem_of_In. auto.
  - intros H. apply list_elem_of_fmap in H as (r & E & Hr).
    exists r. rewrite <- list_elem_of_In. split; [exact Hr |].
    apply Z.eqb_eq. congruence.
Qed.

Lemma create_booking_fst e date p sp leader others s :
  fst (create_booking e date p sp leader others s) =
  if unique_violation date p sp (bookings s) then s
  else with_bookings
         (bookings s ++ [mk_booking (bookings_seq s + 1) date p sp leader others (utcnow e)])
         (bookings_seq s + 1) s.
Proof.
  unfold create_booking. destruct (unique_violation _ _ _ _); [reflexivity |].
  destruct (excel_error e); reflexivity.
Qed.

(** [submit_booking] either leaves the database alone or goes through
    [find_or_create_student] and [create_booking], and these are called for
    a date that can be read and a period that the timetable of the date
    offers for booking. *)
Lemma submit_booking_cases e f s :
  fst (submit_booking e f s) = s \/
  exists date pf sp name bdate p,
    f_booking_date f = Some date /\ f_period f = Some pf /\
    f_sport f = Some sp /\ f_name f = Some name /\
    Py.strptime_ymd date = Some bdate /\ p ∈ get_day_periods bdate /\
    Py.int pf = Some (period p) /\ bookable p = true /\
    fst (submit_booking e f s) =
      fst (create_booking e date (period p) sp (leader_of f s)
             (default "" (f_others f))
             (fst (find_or_create_student name
                     (Some (Py.lower (Py.strip (default "" (f_email f)))))
                     (normalize_grade_input (default "" (f_grade f))) s))).
Proof.
  unfold submit_booking, leader_of.
  destruct (f_booking_date f) as [date |]; [| left; reflexivity].
  destruct (f_period f) as [pf |]; [| left; reflexivity].
  destruct (f_sport f) as [sp |]; [| left; reflexivity].
  destruct (f_name f) as [name |]; [| left; reflexivity].
  cbn [from_option id].
  destruct (negb _); [left; reflexivity |].
  destruct (Py.strptime_ymd date) as [bdate |] eqn:SP; [| left; reflexivity].
  destruct (find_period (get_day_periods bdate) pf) as [[p |] |] eqn:FP;
    [| left; reflexivity | left; reflexivity].
  destruct (find_period_found _ _ _ FP) as [M I]. rewrite I.
  destruct (bookable p) eqn:B; cbn [negb]; [| left; reflexivity].
  unfold ENFORCE_SCHOOL_EMAIL. cbn [andb].
  right. exists date, pf, sp, name, bdate, p.
  do 4 (split; [reflexivity |]). split; [exact SP |].
  split; [exact M |]. split; [exact I |]. split; [exact B |].
  destruct (find_or_create_student name _ _ s) as [s1 leader]. cbn [fst snd].
  destruct (create_booking e date (period p) sp leader _ s1)
    as [s2 [success err]]. cbn [fst].
  destruct success.
  - destruct (blackpoint_threshold s2) as [t |]; [| reflexivity].
    destruct (t <=? _); reflexivity.
  - destruct (bool_decide _); reflexivity.
Qed.

Lemma bookings_valid_mono s s' :
  bookings_valid s ->
  (forall b, b ∈ bookings s' -> b ∈ bookings s) ->
  (forall x, x ∈ s_id <$> students s -> x ∈ s_id <$> students s') ->
  bookings_valid s'.
Proof.
  unfold bookings_valid. rewrite !Forall_forall. intros V B S b Hb.
  destruct (V b (B b Hb)) as [T L]. split; [exact T |].
  apply leader_known_spec, S, leader_known_spec, L.
Qed.

Lemma submit_booking_valid e f s :
  bookings_valid s -> bookings_valid (fst (submit_booking e f s)).
Proof.
  intros V.
  destruct (submit_booking_cases e f s)
    as [-> | (date & pf & sp & name & bdate & p & Fd & Fp & Fs & Fn
              & SP & M & I & B & ->)]; [exact V |].
  set (email := Some (Py.lower (Py.strip (default "" (f_email f))))).
  set (grade := normalize_grade_input (default "" (f_grade f))).
  assert (L : leader_of f s = snd (find_or_create_student name email grade s))
    by (unfold leader_of; rewrite Fn; reflexivity).
  pose proof (find_or_create_student_id name email grade s) as K.
  pose proof (find_or_create_student_frame name email grade s) as (B1 & _ & _).
  cbv zeta in B1.
  destruct (students_change_ids s _
              (or_introl (find_or_create_student_change name email grade s)))
    as [new N].
  set (s1 := fst (find_or_create_student name email grade s)) in *.
  assert (V1 : bookings_valid s1).
  { apply (bookings_valid_mono s); [exact V | rewrite B1; auto |].
    intros x Hx. rewrite N. apply elem_of_app. left. exact Hx. }
  rewrite create_booking_fst.
  destruct (unique_violation _ _ _ _); [exact V1 |].
  unfold bookings_valid. cbn [bookings with_bookings].
  apply Forall_app. split.
  - unfold bookings_valid in V1. rewrite Forall_forall in *.
    intros b Hb. destruct (V1 b Hb) as [T Lk]. split; [exact T |].
    apply leader_known_spec. apply leader_known_spec in Lk. exact Lk.
  - apply Forall_singleton. split.
    + unfold on_timetable. cbn [booking_date b_period]. rewrite SP.
      apply existsb_exists. exists p. split.
      * apply list_elem_of_In. exact M.
      * rewrite B, Z.eqb_refl. reflexivity.
    + apply leader_known_spec. cbn [leader_student_id students with_bookings].
      rewrite L. exact K.
Qed.

Lemma serve_valid c r session s :
  bookings_valid s -> bookings_valid (snd (fst (serve c r (session, s)))).
Proof.
  intros V.
  destruct r as [today ds | d p sp | e f | | m u p | | bid | sid | thr];
    cbn [serve]; try exact V.
  - pose proof (submit_booking_valid e f s V) as Q.
    destruct (submit_booking e f s) as [s' a]. exact Q.
  - destruct (admin_login c m u p session) as [session' a]. exact V.
  - destruct session; [| exact V]. cbn.
    apply (bookings_valid_mono s); [exact V | | auto].
    intros b Hb. cbn in Hb. apply list_elem_of_filter in Hb as [_ Hb]. exact Hb.
  - destruct session; [| exact V]. cbn.
    apply (bookings_valid_mono s); [exact V | auto |].
    intros x Hx. cbn [students with_students].
    rewrite (fmap_ids_same _ _ (add_black_point_id sid)). exact Hx.
  - pose proof (admin_settings_frame session thr s) as (S1 & _ & B1 & _).
    cbv zeta in S1, B1.
    destruct (admin_settings session thr s) as [s' a]. cbn [fst snd] in *.
    apply (bookings_valid_mono s); [exact V | rewrite B1; auto |].
    rewrite S1. auto.
Qed.

Lemma serve_all_valid c rs st :
  bookings_valid (snd st) -> bookings_valid (snd (serve_all c rs st)).
Proof.
  revert st. induction rs as [| r rs IH]; intros [session s] V; [exact V |].
  cbn [serve_all]. apply IH. apply serve_valid. exact V.
Qed.

Lemma bookable_period_bounds d p :
  p ∈ get_day_periods d -> bookable p = true ->
  Py.weekday d <= 3 /\
  1 <= period p < Z.of_nat (length (get_day_periods d)) /\
  (Py.weekday d = 3 -> 1 < period p).
Proof.
  intros M B. pose proof (weekday_range d) as R.
  assert (C : Py.weekday d <= 3 \/ 3 < Py.weekday d) by lia.
  destruct C as [C | C];
    [| rewrite (periods_weekend d C) in M; inversion M].
  split; [exact C |].
  destruct (school_day_cases d C) as [H | H].
  - rewrite (periods_45 d H) in *.
    repeat (apply elem_of_cons in M as [-> | M]);
      try (inversion M; fail); cbn in *; try discriminate; lia.
  - rewrite (periods_40 d H) in *.
    repeat (apply elem_of_cons in M as [-> | M]);
      try (inversion M; fail); cbn [bookable period length] in *;
      try discriminate.
    all: split; [lia |]; intros W; lia.
Qed.

(** X8. What the pages can put into [bookings]. Whatever requests are
    served, starting from the empty database, every stored booking has a
    date text that reads as a date from Monday to Thursday, a period that
    the timetable of that date marks as bookable (so never the last period
    of the day, and never the first one on a Thursday), and a leader who is
    a row of [students]. *)
Theorem served_bookings_valid (c : credentials) (rs : list request)
    (session : bool) :
  let s := snd (serve_all c rs (session, initial_db)) in
  Forall (fun b =>
    leader_student_id b ∈ s_id <$> students s /\
    exists d p,
      Py.strptime_ymd (booking_date b) = Some d /\ Py.weekday d <= 3 /\
      p ∈ get_day_periods d /\ period p = b_period b /\ bookable p = true /\
      1 <= b_period b < Z.of_nat (length (get_day_periods d)) /\
      (Py.weekday d = 3 -> 1 < b_period b))
    (bookings s).
Proof.
  cbv zeta.
  assert (V : bookings_valid (snd (serve_all c rs (session, initial_db)))).
  { apply serve_all_valid. constructor. }
  unfold bookings_valid in V. apply (Forall_impl _ _ _ V).
  intros b [T L]. split; [apply leader_known_spec, L |].
  unfold on_timetable in T.
  destruct (Py.strptime_ymd (booking_date b)) as [d |]; [| discriminate].
  apply existsb_exists in T as (p & M & E).
  apply list_elem_of_In in M. apply andb_prop in E as [E B].
  apply Z.eqb_eq in E.
  destruct (bookable_period_bounds d p M B) as (W & R & Th).
  exists d, p. rewrite <- E. repeat split; try assumption; lia.
Qed.

(** ** The admin session *)

Lemma black_points_kept_refl s : black_points_kept s s.
Proof. intros i r H. exists r. auto. Qed.

Lemma black_points_kept_trans s1 s2 s3 :
  black_points_kept s1 s2 -> black_points_kept s2 s3 -> black_points_kept s1 s3.
Proof.
  intros A B i r H. destruct (A i r H) as (r2 & H2 & I2 & P2).
  destruct (B i r2 H2) as (r3 & H3 & I3 & P3).
  exists r3. repeat split; [exact H3 | congruence | congruence].
Qed.

Lemma submit_booking_grows e f s :
  exists new, bookings (fst (submit_booking e f s)) = bookings s ++ new.
Proof.
  destruct (submit_booking_cases e f s)
    as [-> | (date & pf & sp & name & bdate & p & _ & _ & _ & _
              & _ & _ & _ & _ & ->)].
  - exists []. rewrite app_nil_r. reflexivity.
  - rewrite create_booking_fst.
    pose proof (find_or_create_student_frame name
                  (Some (Py.lower (Py.strip (default "" (f_email f)))))
                  (normalize_grade_input (default "" (f_grade f))) s)
      as (B & _ & _). cbv zeta in B.
    destruct (unique_violation _ _ _ _).
    + exists []. rewrite app_nil_r. exact B.
    + eexists. cbn [bookings with_bookings]. rewrite B. reflexivity.
Qed.

(** One request of a browser without a session, other than a login with
    the credentials. *)
Lemma serve_logged_out c r s :
  logs_in c r = false ->
  fst (fst (serve c r (false, s))) = false /\
  settings (snd (fst (serve c r (false, s)))) = settings s /\
  (exists new, bookings (snd (fst (serve c r (false, s)))) = bookings s ++ new) /\
  students_quiet s (snd (fst (serve c r (false, s)))).
Proof.
  assert (Same : false = false /\ settings s = settings s /\
                 (exists new, bookings s = bookings s ++ new) /\
                 students_quiet s s).
  { repeat split. - exists []. rewrite app_nil_r. reflexivity.
    - apply students_kept; reflexivity. }
  intros NL.
  destruct r as [today ds | d p sp | e f | | m u p | | bid | sid | thr];
    cbn [serve]; try exact Same.
  - pose proof (submit_booking_settings e f s) as S.
    pose proof (submit_booking_grows e f s) as G.
    pose proof (proj1 (submit_booking_changes e f s)) as Q.
    destruct (submit_booking e f s) as [s' a]. cbn [fst snd] in *.
    repeat split; assumption.
  - unfold admin_login. destruct m; [exact Same |].
    cbn [logs_in] in NL. rewrite NL. exact Same.
Qed.

(** X9. Without a login that carries the credentials, nothing of what the
    admin pages do happens. Whatever a browser without a session requests
    (bookings, availability checks, logins with other credentials, the
    delete, red-flag and settings actions), the session stays closed, the
    settings stay as they are, no booking is removed and no student gets a
    black point. *)
Theorem no_admin_action_without_login (c : credentials) (rs : list request)
    (s : db) :
  forallb (fun r => negb (logs_in c r)) rs = true ->
  let st' := serve_all c rs (false, s) in
  fst st' = false /\
  settings (snd st') = settings s /\
  (exists new, bookings (snd st') = bookings s ++ new) /\
  black_points_kept s (snd st').
Proof.
  cbv zeta. revert s. induction rs as [| r rs IH]; intros s NL.
  - cbn. repeat split; [| apply black_points_kept_refl].
    exists []. rewrite app_nil_r. reflexivity.
  - cbn [forallb] in NL. apply andb_prop in NL as [NL1 NL].
    apply negb_true_iff in NL1.
    destruct (serve_logged_out c r s NL1) as (A & B & (new1 & C) & D).
    cbn [serve_all].
    destruct (fst (serve c r (false, s))) as [session s1]. cbn [fst snd] in *.
    subst session.
    destruct (IH s1 NL) as (A' & B' & (new' & C') & D').
    split; [exact A' |]. split; [congruence |]. split.
    + exists (new1 ++ new'). rewrite C', C, app_assoc. reflexivity.
    + apply (black_points_kept_trans s s1);
        [apply students_quiet_black_points, D | exact D'].
Qed.

(** Ann has a booking. A browser that guesses a password and then calls
    the three admin actions changes nothing. *)
Lemma no_admin_action_without_login_witness :
  let e := mk_env "2024-01-01T08:00:00" None in
  let ann := mk_form (Some "2024-01-01") (Some "2") (Some "Football")
                     (Some "Ann") None None None in
  let s := fst (submit_booking e ann initial_db) in
  let st' := serve_all default_credentials
               [Req_admin_login POST (Some "admin") (Some "guess");
                Req_admin_delete 1; Req_admin_redflag 1;
                Req_admin_settings (Some "0")] (false, s) in
  fst st' = false /\
  settings (snd st') = settings s /\
  (exists new, bookings (snd st') = bookings s ++ new) /\
  black_points_kept s (snd st').
Proof.
  cbv zeta.
  apply (no_admin_action_without_login default_credentials
           [Req_admin_login POST (Some "admin") (Some "guess");
            Req_admin_delete 1; Req_admin_redflag 1;
            Req_admin_settings (Some "0")]).
  reflexivity.
Defined.

(** ** Dates written and read back *)

Lemma digit_chr_digit k :
  0 <= k <= 9 ->
  Py.is_digit (Py.digit_chr k) = true /\ Py.digit_val (Py.digit_chr k) = k.
Proof.
  intros H.
  assert (C : k = 0 \/ k = 1 \/ k = 2 \/ k = 3 \/ k = 4 \/ k = 5 \/ k = 6
              \/ k = 7 \/ k = 8 \/ k = 9) by lia.
  repeat destruct C as [-> | C]; try subst k; split; reflexivity.
Qed.

Lemma strptime_ymd_unfold y1 y2 y3 y4 r :
  Py.strptime_ymd (String y1 (String y2 (String y3 (String y4 (String "-"%char r))))) =
  let ys := String y1 (String y2 (String y3 (String y4 EmptyString))) in
  if Py.all_digits ys then
    match Py.month_field r with
    | Some (m, String "-"%char r2) =>
        match Py.day_field r2 with
        | Some (d, EmptyString) =>
            let dt := Py.mk_date (Py.digits_value 0 ys) m d in
            if Py.valid_date dt then Some dt else None
        | _ => None
        end
    | _ => None
    end
  else None.
Proof. reflexivity. Qed.

Lemma month_field_two m r :
  1 <= m <= 12 -> Py.month_field (String.append (Py.two_digits m) r) = Some (m, r).
Proof.
  intros H.
  assert (C : m = 1 \/ m = 2 \/ m = 3 \/ m = 4 \/ m = 5 \/ m = 6 \/ m = 7
              \/ m = 8 \/ m = 9 \/ m = 10 \/ m = 11 \/ m = 12) by lia.
  repeat destruct C as [-> | C]; try subst m; reflexivity.
Qed.

Lemma day_field_two d :
  1 <= d <= 31 -> Py.day_field (Py.two_digits d) = Some (d, EmptyString).
Proof.
  intros H.
  assert (C : exists n : nat, (n < 31)%nat /\ d = 1 + Z.of_nat n)
    by (exists (Z.to_nat (d - 1)); lia).
  destruct C as (n & L & ->).
  do 31 (destruct n as [| n]; [reflexivity |]). lia.
Qed.

Lemma days_in_month_31 y m : Py.days_in_month y m <= 31.
Proof.
  unfold Py.days_in_month.
  destruct (m =? 2); [destruct (Py.is_leap y); lia |].
  destruct (_ || _); lia.
Qed.

Lemma four_digits_value y :
  0 <= y <= 9999 ->
  10 * (10 * (10 * (10 * 0 + y / 1000 mod 10) + y / 100 mod 10) + y / 10 mod 10)
  + y mod 10 = y.
Proof. intros H. Z.div_mod_to_equations. lia. Qed.

(** [strptime(d.isoformat(), "%Y-%m-%d").date()] is [d]. *)
Lemma strptime_isoformat d :
  Py.valid_date d = true -> Py.strptime_ymd (isoformat d) = Some d.
Proof.
  intros V. pose proof V as V0. destruct d as [y m dd].
  unfold Py.valid_date in V. cbn [Py.year Py.month Py.day] in V.
  pose proof (days_in_month_31 y m) as D31.
  assert (R : (1 <= y <= 9999) /\ (1 <= m <= 12) /\ (1 <= dd <= 31)) by lia.
  destruct R as (Ry & Rm & Rd).
  unfold isoformat, four_digits. cbn [Py.year Py.month Py.day].
  unfold Py.two_digits at 1.
  change (String.append (String ?a (String ?b (String ?c (String ?d EmptyString)))) ?t)
    with (String a (String b (String c (String d t)))).
  rewrite strptime_ymd_unfold. cbv zeta.
  destruct (digit_chr_digit (y / 1000 mod 10)) as [A1 A2];
    [pose proof (Z.mod_pos_bound (y / 1000) 10); pose proof (Z.mod_pos_bound (y / 100) 10);
     pose proof (Z.mod_pos_bound (y / 10) 10); pose proof (Z.mod_pos_bound y 10); lia |].
  destruct (digit_chr_digit (y / 100 mod 10)) as [B1 B2];
    [pose proof (Z.mod_pos_bound (y / 1000) 10); pose proof (Z.mod_pos_bound (y / 100) 10);
     pose proof (Z.mod_pos_bound (y / 10) 10); pose proof (Z.mod_pos_bound y 10); lia |].
  destruct (digit_chr_digit (y / 10 mod 10)) as [C1 C2];
    [pose proof (Z.mod_pos_bound (y / 1000) 10); pose proof (Z.mod_pos_bound (y / 100) 10);
     pose proof (Z.mod_pos_bound (y / 10) 10); pose proof (Z.mod_pos_bound y 10); lia |].
  destruct (digit_chr_digit (y mod 10)) as [E1 E2];
    [pose proof (Z.mod_pos_bound (y / 1000) 10); pose proof (Z.mod_pos_bound (y / 100) 10);
     pose proof (Z.mod_pos_bound (y / 10) 10); pose proof (Z.mod_pos_bound y 10); lia |].
  cbn [Py.all_digits Py.digits_value]. rewrite A1, B1, C1, E1, A2, B2, C2, E2.
  cbn [andb]. rewrite (month_field_two m _ Rm), (day_field_two dd Rd).
  rewrite (four_digits_value y) by lia. rewrite V0. reflexivity.
Qed.

Lemma strptime_valid t d : Py.strptime_ymd t = Some d -> Py.valid_date d = true.
Proof.
  unfold Py.strptime_ymd. intros H.
  repeat (case_match; try discriminate). congruence.
Qed.

(** ** The booking page *)

(** The number of a period of the day, written by the page and read by the
    handlers, finds the period again. *)
Lemma find_period_pretty d p :
  p ∈ get_day_periods d ->
  find_period (get_day_periods d) (pretty (period p)) = Some (Some p) /\
  Py.nonempty (pretty (period p)) = true /\
  Py.int (pretty (period p)) = Some (period p).
Proof.
  intros M. pose proof (weekday_range d) as R.
  assert (C : Py.weekday d <= 3 \/ 3 < Py.weekday d) by lia.
  destruct C as [C | C];
    [| rewrite (periods_weekend d C) in M; inversion M].
  destruct (school_day_cases d C) as [H | H].
  - rewrite (periods_45 d H) in *.
    repeat (apply elem_of_cons in M as [-> | M]);
      try (inversion M; fail); repeat split; reflexivity.
  - rewrite (periods_40 d H) in *.
    repeat (apply elem_of_cons in M as [-> | M]);
      try (inversion M; fail); repeat split; reflexivity.
Qed.

Lemma isoformat_nonempty d : Py.nonempty (isoformat d) = true.
Proof. reflexivity. Qed.

Lemma get_day_periods_nil d : get_day_periods d = [] <-> 3 < Py.weekday d.
Proof.
  pose proof (weekday_range d) as R. split.
  - intros E. assert (C : Py.weekday d <= 3 \/ 3 < Py.weekday d) by lia.
    destruct C as [C | C]; [| exact C].
    destruct (school_day_cases d C) as [H | H];
      [rewrite (periods_45 d H) in E | rewrite (periods_40 d H) in E];
      discriminate.
  - apply periods_weekend.
Qed.

(** X10. The booking page and the handlers behind it fit together. The
    page is made for the date of the [date] parameter when [strptime] reads
    it, and for today when the parameter is missing, empty or unreadable.
    For a date from Monday to Thursday [book] shows the form, with the ISO
    text of that date in the hidden field and the timetable of that date as
    the list of periods; for any other date it shows the no-school page.
    The handlers read the hidden text back as the same date, and for every
    listed period and any sport [api_check_slot], called with what the form
    sends, answers [ok] or "slot already taken" when the period is shown
    as bookable and "period not bookable by rules" when it is not: it
    never finds the date or the period invalid. *)
Theorem book_page_matches_handlers (today : Py.date) (ds : option string) :
  Py.valid_date today = true ->
  exists d,
    (forall t d', ds = Some t -> Py.strptime_ymd t = Some d' -> d = d') /\
    ((forall t, ds = Some t -> Py.strptime_ymd t = None) -> d = today) /\
    (Py.weekday d <= 3 ->
       book today ds = render_book (isoformat d) (get_day_periods d)) /\
    (3 < Py.weekday d ->
       book today ds
       = plain (render_fail "No school on this date (only Mon-Thu supported).")) /\
    Py.strptime_ymd (isoformat d) = Some d /\
    forall (p : period_entry) (sp : string) (s : db),
      p ∈ get_day_periods d -> Py.nonempty sp = true ->
      api_check_slot (Some (isoformat d)) (Some (pretty (period p))) (Some sp) s =
        if bookable p then
          if is_slot_taken (isoformat d) (period p) sp s
          then jsonify false (Some "slot already taken")
          else jsonify true None
        else jsonify false (Some "period not bookable by rules").
Proof.
  intros VT. unfold book.
  set (d := match ds with
            | Some t =>
                if Py.nonempty t then
                  match Py.strptime_ymd t with Some d => d | None => today end
                else today
            | None => today
            end).
  assert (O1 : forall t d', ds = Some t -> Py.strptime_ymd t = Some d' -> d = d').
  { intros t d' -> E. subst d. rewrite E.
    destruct t; [discriminate E | reflexivity]. }
  assert (O2 : (forall t, ds = Some t -> Py.strptime_ymd t = None) -> d = today).
  { intros H. subst d. destruct ds as [t |]; [| reflexivity].
    rewrite (H t eq_refl). destruct (Py.nonempty t); reflexivity. }
  assert (V : Py.valid_date d = true).
  { subst d. destruct ds as [t |]; [| exact VT].
    destruct (Py.nonempty t); [| exact VT].
    destruct (Py.strptime_ymd t) as [d' |] eqn:E; [| exact VT].
    exact (strptime_valid t d' E). }
  clearbody d. exists d.
  split; [exact O1 |]. split; [exact O2 |]. split; [| split; [| split]].
  - intros W. destruct (get_day_periods d) as [| q qs] eqn:G; [| reflexivity].
    apply get_day_periods_nil in G. lia.
  - intros W. apply get_day_periods_nil in W. rewrite W. reflexivity.
  - apply strptime_isoformat, V.
  - intros p sp s M N. unfold api_check_slot.
    destruct (find_period_pretty d p M) as (F & NP & I).
    rewrite isoformat_nonempty, NP, N. cbn [andb negb].
    rewrite (strptime_isoformat d V), F, I.
    destruct (bookable p); reflexivity.
Qed.

(** The page for Monday 2024-01-01, asked for on the Saturday before with
    the parameter "2024-1-1": the form is shown, for 2024-01-01. *)
Lemma book_page_matches_handlers_witness :
  book (Py.mk_date 2023 12 30) (Some "2024-1-1")
  = render_book "2024-01-01" (get_day_periods (Py.mk_date 2024 1 1)) /\
  book (Py.mk_date 2023 12 30) (Some "soon")
  = plain (render_fail "No school on this date (only Mon-Thu supported).").
Proof.
  split.
  - destruct (book_page_matches_handlers (Py.mk_date 2023 12 30)
                (Some "2024-1-1") eq_refl) as (d & O1 & _ & B & _).
    rewrite (O1 "2024-1-1" (Py.mk_date 2024 1 1) eq_refl eq_refl) in B.
    apply B. vm_compute. discriminate.
  - destruct (book_page_matches_handlers (Py.mk_date 2023 12 30)
                (Some "soon") eq_refl) as (d & _ & O2 & _ & B & _).
    rewrite (O2 ltac:(intros t [= <-]; reflexivity)) in B.
    apply B. reflexivity.
Defined.

(** ** Grades *)

Lemma to_upper_idem c : Py.to_upper (Py.to_upper c) = Py.to_upper c.
Proof. destruct c as [[] [] [] [] [] [] [] []]; reflexivity. Qed.

Lemma to_lower_idem c : Py.to_lower (Py.to_lower c) = Py.to_lower c.
Proof. destruct c as [[] [] [] [] [] [] [] []]; reflexivity. Qed.

Lemma to_upper_lower c : Py.to_upper (Py.to_lower c) = Py.to_upper c.
Proof. destruct c as [[] [] [] [] [] [] [] []]; reflexivity. Qed.

Lemma is_alpha_upper c : Py.is_alpha (Py.to_upper c) = Py.is_alpha c.
Proof. destruct c as [[] [] [] [] [] [] [] []]; reflexivity. Qed.

Lemma is_alpha_lower c : Py.is_alpha (Py.to_lower c) = Py.is_alpha c.
Proof. destruct c as [[] [] [] [] [] [] [] []]; reflexivity. Qed.

Lemma is_space_upper c : Py.is_space (Py.to_upper c) = Py.is_space c.
Proof. destruct c as [[] [] [] [] [] [] [] []]; reflexivity. Qed.

Lemma is_space_lower c : Py.is_space (Py.to_lower c) = Py.is_space c.
Proof. destruct c as [[] [] [] [] [] [] [] []]; reflexivity. Qed.

Lemma title_from_idem b t :
  Py.title_from b (Py.title_from b t) = Py.title_from b t.
Proof.
  revert b. induction t as [| c r IH]; intros b; [reflexivity |].
  cbn [Py.title_from]. destruct b.
  - rewrite to_lower_idem, is_alpha_lower, IH. reflexivity.
  - rewrite to_upper_idem, is_alpha_upper, IH. reflexivity.
Qed.

Lemma upper_title_from b t : Py.upper (Py.title_from b t) = Py.upper t.
Proof.
  revert b. induction t as [| c r IH]; intros b; [reflexivity |].
  cbn [Py.title_from]. unfold Py.upper in *. cbn [Py.map_str]. rewrite IH.
  destruct b; [rewrite to_upper_lower | rewrite to_upper_idem]; reflexivity.
Qed.

(** A text begins with no blank when it is empty or its first character is
    no blank; [lstrip] leaves such a text alone, and gives such a text. *)
Lemma lstrip_head t :
  match Py.lstrip t with
  | EmptyString => True
  | String c _ => Py.is_space c = false
  end.
Proof.
  induction t as [| c r IH]; [exact I |]. cbn [Py.lstrip].
  destruct (Py.is_space c) eqn:E; [exact IH | exact E].
Qed.

Lemma rstrip_head t :
  match t with EmptyString => True | String c _ => Py.is_space c = false end ->
  match Py.rstrip t with
  | EmptyString => True
  | String c _ => Py.is_space c = false
  end.
Proof.
  destruct t as [| c r]; [trivial |]. intros H. cbn [Py.rstrip].
  destruct (Py.rstrip r); [rewrite H |]; exact H.
Qed.

Lemma rstrip_idem t : Py.rstrip (Py.rstrip t) = Py.rstrip t.
Proof.
  induction t as [| c r IH]; [reflexivity |]. cbn [Py.rstrip].
  destruct (Py.rstrip r) as [| d r'] eqn:E.
  - destruct (Py.is_space c) eqn:S; [reflexivity |].
    cbn [Py.rstrip]. rewrite S. reflexivity.
  - change (Py.rstrip (String c (String d r')))
      with (match Py.rstrip (String d r') with
            | EmptyString => if Py.is_space c then EmptyString
                             else String c EmptyString
            | r'' => String c r''
            end).
    rewrite IH. reflexivity.
Qed.

Lemma lstrip_fixed t :
  match t with EmptyString => True | String c _ => Py.is_space c = false end ->
  Py.lstrip t = t.
Proof.
  destruct t as [| c r]; [reflexivity |]. intros H. cbn [Py.lstrip].
  rewrite H. reflexivity.
Qed.

Lemma title_from_head b t :
  match t with EmptyString => True | String c _ => Py.is_space c = false end ->
  match Py.title_from b t with
  | EmptyString => True
  | String c _ => Py.is_space c = false
  end.
Proof.
  destruct t as [| c r]; [trivial |]. intros H. cbn [Py.title_from].
  destruct b; [rewrite is_space_lower | rewrite is_space_upper]; exact H.
Qed.

Lemma rstrip_title_from b t :
  Py.rstrip t = t -> Py.rstrip (Py.title_from b t) = Py.title_from b t.
Proof.
  revert b. induction t as [| c r IH]; intros b; [reflexivity |].
  cbn [Py.rstrip Py.title_from]. intros H.
  destruct (Py.rstrip r) as [| d r'] eqn:E.
  - destruct (Py.is_space c) eqn:S; [discriminate |].
    injection H as <-. cbn [Py.title_from Py.rstrip].
    destruct b; [rewrite is_space_lower | rewrite is_space_upper];
      rewrite S; reflexivity.
  - injection H as <-. specialize (IH (Py.is_alpha c) eq_refl).
    rewrite IH. cbn [Py.title_from]. reflexivity.
Qed.

(** What [strip] returns is left alone by [strip], also after [title]. *)
Lemma strip_title_strip raw :
  Py.strip (Py.title (Py.strip raw)) = Py.title (Py.strip raw).
Proof.
  unfold Py.strip at 1. unfold Py.title.
  pose proof (rstrip_head _ (lstrip_head raw)) as H.
  fold (Py.strip raw) in H.
  rewrite (lstrip_fixed _ (title_from_head false _ H)).
  apply rstrip_title_from. unfold Py.strip. apply rstrip_idem.
Qed.

(** For an entry that is not empty the answer depends on the stripped text
    only, through its upper-case and title-case forms. *)
Lemma normalize_grade_input_ext raw1 raw2 :
  Py.nonempty raw1 = true -> Py.nonempty raw2 = true ->
  Py.upper (Py.strip raw1) = Py.upper (Py.strip raw2) ->
  Py.title (Py.strip raw1) = Py.title (Py.strip raw2) ->
  normalize_grade_input raw1 = normalize_grade_input raw2.
Proof.
  intros N1 N2 U T. unfold normalize_grade_input.
  rewrite N1, N2, U, T. reflexivity.
Qed.

(** X11. For an entry in ASCII, a stored grade is a fixed point of
    [normalize_grade_input]: what the function returns for the entry
    (["Year 12"], ["Year 13"] or the entry stripped and in title case) is
    returned unchanged when it is entered again, unless it is the empty
    text, which an entry of blanks only gives and which itself gives
    [None]. (Outside ASCII [str.title] need not be idempotent.) *)
Theorem normalize_grade_input_fixed_point (raw g : string) :
  Py.is_ascii raw = true ->
  normalize_grade_input raw = Some g ->
  g <> "" ->
  normalize_grade_input g = Some g.
Proof.
  intros _ H NE. pose proof H as H0. unfold normalize_grade_input in H.
  destruct (Py.nonempty raw) eqn:N; cbn [negb] in H; [| discriminate].
  assert (Y : g = "Year 12" \/ g = "Year 13" \/ g = Py.title (Py.strip raw)).
  { destruct (last (Py.findall_d12 (Py.upper (Py.strip raw)))) as [dg |].
    - destruct ((Py.digits_value 0 dg =? 11) || (Py.digits_value 0 dg =? 12));
        [injection H as <-; auto |].
      destruct (Py.digits_value 0 dg =? 13); [injection H as <-; auto |].
      destruct (Py.contains "12" _); [injection H as <-; auto |].
      destruct (Py.contains "13" _); injection H as <-; auto.
    - destruct (Py.contains "12" _); [injection H as <-; auto |].
      destruct (Py.contains "13" _); injection H as <-; auto. }
  destruct Y as [-> | [-> | Y]]; [reflexivity | reflexivity |].
  rewrite <- H0. apply normalize_grade_input_ext.
  - destruct g; [congruence | reflexivity].
  - exact N.
  - rewrite Y, strip_title_strip. apply upper_title_from.
  - rewrite Y, strip_title_strip. apply title_from_idem.
Qed.

Lemma normalize_grade_input_fixed_point_witness :
  normalize_grade_input "Year 12" = Some "Year 12" /\
  normalize_grade_input " staff  ROOM " = Some "Staff  Room" /\
  normalize_grade_input "Staff  Room" = Some "Staff  Room".
Proof.
  split; [| split].
  - apply (normalize_grade_input_fixed_point " grade 11 " "Year 12");
      [reflexivity | reflexivity | discriminate].
  - reflexivity.
  - apply (normalize_grade_input_fixed_point " staff  ROOM " "Staff  Room");
      [reflexivity | reflexivity | discriminate].
Defined.

(** ** The routes and the schema *)

(** A request changes the database as one of the operations does, or not
    at all. *)
Lemma serve_run c r session s :
  snd (fst (serve c r (session, s))) = s \/
  exists o, snd (fst (serve c r (session, s))) = run o s.
Proof.
  destruct r as [today ds | d p sp | e f | | m u p | | bid | sid | thr];
    cbn [serve]; try (left; reflexivity).
  - right. exists (Submit_booking e f). cbn [run].
    destruct (submit_booking e f s); reflexivity.
  - left. destruct (admin_login c m u p session); reflexivity.
  - right. exists (Admin_delete session bid). cbn [run].
    destruct (admin_delete session bid s); reflexivity.
  - right. exists (Admin_redflag session sid). cbn [run].
    destruct (admin_redflag session sid s); reflexivity.
  - right. exists (Admin_settings session thr). cbn [run].
    destruct (admin_settings session thr s); reflexivity.
Qed.

Lemma serve_all_reachable c rs st :
  reachable (snd st) -> reachable (snd (serve_all c rs st)).
Proof.
  revert st. induction rs as [| r rs IH]; intros [session s] R; [exact R |].
  cbn [serve_all]. apply IH.
  destruct (serve_run c r session s) as [-> | [o ->]];
    [exact R | apply reachable_step, R].
Qed.

(** X12. The routes keep what the schema declares. Whatever requests are
    served, starting from the empty database, no two students and no two
    bookings share a number, every number was handed out by the counter of
    its table, a slot (date text, period, sport) has at most one booking,
    and [is_slot_taken] says exactly whether it has one. *)
Theorem served_db_ok (c : credentials) (rs : list request) (session : bool) :
  let s := snd (serve_all c rs (session, initial_db)) in
  db_ok s /\
  (forall date p sp, (length (rows_of_slot date p sp s) <= 1)%nat) /\
  (forall date p sp,
     is_slot_taken date p sp s = true <-> length (rows_of_slot date p sp s) = 1%nat).
Proof.
  cbv zeta.
  assert (OK : db_ok (snd (serve_all c rs (session, initial_db)))).
  { apply reachable_db_ok, serve_all_reachable. cbn. apply reachable_init. }
  assert (U : forall date p sp,
             (length (rows_of_slot date p sp
                        (snd (serve_all c rs (session, initial_db)))) <= 1)%nat).
  { intros date p sp. apply slot_rows_at_most_one, OK. }
  split; [exact OK |]. split; [exact U |].
  intros date p sp. specialize (U date p sp).
  unfold is_slot_taken. fold (rows_of_slot date p sp
                                (snd (serve_all c rs (session, initial_db)))).
  rewrite Z.ltb_lt. lia.
Qed.

(** ** A booking whose spreadsheet row cannot be written *)

(** What [api_check_slot] has checked when it answers [ok] ([b] false) or
    "slot already taken" ([b] true). *)
Lemma api_check_slot_inv d pfo spo s (b : bool) :
  api_check_slot d pfo spo s
  = (if b then jsonify false (Some "slot already taken") else jsonify true None) ->
  exists date pf sp bdate p,
    d = Some date /\ pfo = Some pf /\ spo = Some sp /\
    Py.nonempty date && Py.nonempty pf && Py.nonempty sp = true /\
    Py.strptime_ymd date = Some bdate /\
    find_period (get_day_periods bdate) pf = Some (Some p) /\
    bookable p = true /\ Py.int pf = Some (period p) /\
    is_slot_taken date (period p) sp s = b.
Proof.
  unfold api_check_slot.
  destruct d as [date |]; [| destruct b; discriminate].
  destruct pfo as [pf |]; [| destruct b; discriminate].
  destruct spo as [sp |]; [| destruct b; discriminate].
  destruct (Py.nonempty date && Py.nonempty pf && Py.nonempty sp) eqn:N;
    cbn [negb]; [| destruct b; discriminate].
  destruct (Py.strptime_ymd date) as [bdate |] eqn:SP; [| destruct b; discriminate].
  destruct (find_period (get_day_periods bdate) pf) as [[p |] |] eqn:FP;
    [| destruct b; discriminate | destruct b; discriminate].
  destruct (find_period_found _ _ _ FP) as [_ I]. rewrite I.
  destruct (bookable p) eqn:B; cbn [negb]; [| destruct b; discriminate].
  intros H. exists date, pf, sp, bdate, p.
  repeat (split; [first [reflexivity | assumption] |]).
  destruct (is_slot_taken date (period p) sp s), b;
    first [reflexivity | discriminate].
Qed.

(** [submit_booking] once the form has passed the checks. *)
Lemma submit_booking_validated e f s date pf sp name bdate p :
  f_booking_date f = Some date -> f_period f = Some pf ->
  f_sport f = Some sp -> f_name f = Some name ->
  Py.nonempty date && Py.nonempty pf && Py.nonempty sp = true ->
  Py.nonempty name = true ->
  Py.strptime_ymd date = Some bdate ->
  find_period (get_day_periods bdate) pf = Some (Some p) ->
  bookable p = true -> Py.int pf = Some (period p) ->
  let foc := find_or_create_student name
               (Some (Py.lower (Py.strip (default "" (f_email f)))))
               (normalize_grade_input (default "" (f_grade f))) s in
  let cb := create_booking e date (period p) sp (snd foc)
              (default "" (f_others f)) (fst foc) in
  submit_booking e f s =
    (fst cb,
     if fst (snd cb) then
       match blackpoint_threshold (fst cb) with
       | None => uncaught "ValueError"
       | Some t =>
           if t <=? leader_black_points (snd foc) (fst cb)
           then render_success MSG_SUPERVISOR else render_success MSG_BOOKED
       end
     else if bool_decide (snd (snd cb) = Some "slot_taken")
     then render_fail "Slot already taken. Try a different period or sport."
     else render_fail (String.append "Failed: " (default "None" (snd (snd cb))))).
Proof.
  intros Fd Fp Fs Fn N Nn SP FP B I. cbv zeta. unfold submit_booking.
  rewrite Fd, Fp, Fs, Fn, N, Nn, SP, FP, B, I. cbn [andb negb].
  unfold ENFORCE_SCHOOL_EMAIL. cbn [andb].
  destruct (find_or_create_student name _ _ s) as [s1 leader]. cbn [fst snd].
  destruct (create_booking e date (period p) sp leader _ s1)
    as [s2 [success err]]. cbn [fst snd].
  destruct success.
  - destruct (blackpoint_threshold s2) as [t |]; [| reflexivity].
    destruct (t <=? _); reflexivity.
  - destruct (bool_decide _); reflexivity.
Qed.

(** X13. When the row cannot be appended to the spreadsheet, the page
    says that the booking failed, with the text of the exception, but the
    booking is stored: the slot is taken from then on, and sending the
    form again is answered with the slot-taken page. *)
Theorem submit_booking_when_spreadsheet_fails (e : env) (f : booking_form)
    (s : db) (msg : string) :
  api_check_slot (f_booking_date f) (f_period f) (f_sport f) s = jsonify true None ->
  Py.truthy (f_name f) = true ->
  excel_error e = Some msg ->
  msg <> "slot_taken" ->
  let out := submit_booking e f s in
  snd out = render_fail (String.append "Failed: " msg) /\
  (exists row, bookings (fst out) = bookings s ++ [row]) /\
  api_check_slot (f_booking_date f) (f_period f) (f_sport f) (fst out)
    = jsonify false (Some "slot already taken") /\
  (forall e',
     snd (submit_booking e' f (fst out))
     = render_fail "Slot already taken. Try a different period or sport.").
Proof.
  intros A T X M. cbv zeta.
  destruct (api_check_slot_inv _ _ _ _ false A)
    as (date & pf & sp & bdate & p & Fd & Fp & Fs & N & SP & FP & B & I & Free).
  destruct (f_name f) as [name |] eqn:Fn; [| discriminate]. cbn [Py.truthy] in T.
  set (email := Some (Py.lower (Py.strip (default "" (f_email f))))).
  set (grade := normalize_grade_input (default "" (f_grade f))).
  pose proof (find_or_create_student_frame name email grade s) as (B1 & BS1 & _).
  cbv zeta in B1, BS1.
  rewrite (submit_booking_validated e f s date pf sp name bdate p
             Fd Fp Fs Fn N T SP FP B I).
  fold email grade. cbv zeta.
  destruct (find_or_create_student name email grade s) as [s1 leader].
  cbn [fst snd] in *.
  assert (Free1 : is_slot_taken date (period p) sp s1 = false)
    by (unfold is_slot_taken in *; rewrite B1; exact Free).
  pose proof (create_booking_free e date (period p) sp leader
                (default "" (f_others f)) s1 Free1) as CF.
  assert (CS : snd (create_booking e date (period p) sp leader
                      (default "" (f_others f)) s1) = (false, Some msg)).
  { unfold create_booking. rewrite unique_violation_is_slot_taken, Free1, X.
    reflexivity. }
  rewrite CS, CF. cbn [fst snd].
  set (row := mk_booking (bookings_seq s1 + 1) date (period p) sp leader
                (default "" (f_others f)) (utcnow e)).
  set (s2 := with_bookings (bookings s1 ++ [row]) (bookings_seq s1 + 1) s1).
  assert (Taken2 : is_slot_taken date (period p) sp s2 = true).
  { apply is_slot_taken_spec. exists row.
    split; [apply elem_of_app; right; left |]. repeat split. }
  split.
  { rewrite bool_decide_eq_false_2 by congruence. reflexivity. }
  split.
  { exists row. cbn. rewrite B1. reflexivity. }
  split.
  { unfold api_check_slot. rewrite Fd, Fp, Fs, N, SP, FP, B, I, Taken2.
    reflexivity. }
  intros e'.
  rewrite (submit_booking_validated e' f s2 date pf sp name bdate p
             Fd Fp Fs Fn N T SP FP B I).
  fold email grade. cbv zeta. cbn [snd].
  pose proof (find_or_create_student_frame name email grade s2) as (B2 & _ & _).
  cbv zeta in B2.
  destruct (find_or_create_student name email grade s2) as [s3 leader3].
  cbn [fst snd] in *.
  assert (CS3 : snd (create_booking e' date (period p) sp leader3
                       (default "" (f_others f)) s3) = (false, Some "slot_taken")).
  { unfold create_booking. rewrite B2, unique_violation_is_slot_taken, Taken2.
    reflexivity. }
  rewrite CS3. cbn [fst snd].
  rewrite bool_decide_eq_true_2 by reflexivity. reflexivity.
Qed.

Lemma submit_booking_when_spreadsheet_fails_witness :
  let e := mk_env "2024-01-01T08:00:00"
                  (Some "[Errno 13] Permission denied: 'bookings.xlsx'") in
  let f := mk_form (Some "2024-01-01") (Some "2") (Some "Football")
                   (Some "Ann") None None None in
  let out := submit_booking e f initial_db in
  snd out = render_fail "Failed: [Errno 13] Permission denied: 'bookings.xlsx'" /\
  (exists row, bookings (fst out) = bookings initial_db ++ [row]) /\
  api_check_slot (f_booking_date f) (f_period f) (f_sport f) (fst out)
    = jsonify false (Some "slot already taken") /\
  (forall e',
     snd (submit_booking e' f (fst out))
     = render_fail "Slot already taken. Try a different period or sport.").
Proof.
  cbv zeta.
  apply (submit_booking_when_spreadsheet_fails
           (mk_env "2024-01-01T08:00:00"
                   (Some "[Errno 13] Permission denied: 'bookings.xlsx'"))
           (mk_form (Some "2024-01-01") (Some "2") (Some "Football")
                    (Some "Ann") None None None)
           initial_db "[Errno 13] Permission denied: 'bookings.xlsx'").
  - vm_compute. reflexivity.
  - reflexivity.
  - reflexivity.
  - discriminate.
Defined.

(** ** The student of a form *)

Lemma find_by_name_or_create_post name email grade s :
  let out := find_by_name_or_create name email grade s in
  (exists r, r ∈ students (fst out) /\ s_id r = snd out /\
             s_name r = Py.strip name) /\
  (forall (i : nat) (r : student),
     students s !! i = Some r ->
     exists r', students (fst out) !! i = Some r' /\
                s_id r' = s_id r /\ s_email r' = s_email r /\
                black_points r' = black_points r /\
                (s_id r <> snd out -> r' = r)) /\
  (length (students (fst out)) <= length (students s) + 1)%nat.
Proof.
  cbv zeta. unfold find_by_name_or_create.
  destruct (find (name_is (Py.strip name)) (students s)) as [row |] eqn:F;
    cbn [fst snd with_students students].
  - apply find_elem_of in F as [F1 F2]. split; [| split; [| lia]].
    + exists row. split; [exact F1 |]. split; [reflexivity |].
      apply String.eqb_eq. exact F2.
    + intros i r L. exists r. repeat split; auto.
  - split; [| split].
    + eexists. split; [apply elem_of_app; right; left |]. split; reflexivity.
    + intros i r L. exists r. split; [| repeat split; auto].
      apply lookup_app_l_Some. exact L.
    + rewrite length_app. cbn. lia.
Qed.

(** X14. What [find_or_create_student] leaves. The number it returns is
    the number of a row of the table, and that row carries the stripped
    name. Every row that was there is still at its place with its number,
    its email and its black points; rows with another number than the one
    returned are untouched; at most one row is added, and bookings and
    settings are as before. *)
Theorem find_or_create_student_post (name : string) (email grade : option string)
    (s : db) :
  let out := find_or_create_student name email grade s in
  (exists r, r ∈ students (fst out) /\ s_id r = snd out /\
             s_name r = Py.strip name) /\
  (forall (i : nat) (r : student),
     students s !! i = Some r ->
     exists r', students (fst out) !! i = Some r' /\
                s_id r' = s_id r /\ s_email r' = s_email r /\
                black_points r' = black_points r /\
                (s_id r <> snd out -> r' = r)) /\
  (length (students (fst out)) <= length (students s) + 1)%nat /\
  bookings (fst out) = bookings s /\ settings (fst out) = settings s.
Proof.
  cbv zeta.
  pose proof (find_or_create_student_frame name email grade s) as (FB & _ & FS).
  cbv zeta in FB, FS.
  cut ((exists r, r ∈ students (fst (find_or_create_student name email grade s)) /\
                  s_id r = snd (find_or_create_student name email grade s) /\
                  s_name r = Py.strip name) /\
       (forall (i : nat) (r : student),
          students s !! i = Some r ->
          exists r', students (fst (find_or_create_student name email grade s)) !! i
                     = Some r' /\
                     s_id r' = s_id r /\ s_email r' = s_email r /\
                     black_points r' = black_points r /\
                     (s_id r <> snd (find_or_create_student name email grade s) ->
                      r' = r)) /\
       (length (students (fst (find_or_create_student name email grade s)))
        <= length (students s) + 1)%nat).
  { intros (A & B & C). repeat split; assumption. }
  clear FB FS. unfold find_or_create_student.
  destruct email as [e |]; [| apply find_by_name_or_create_post].
  destruct (Py.nonempty e); [| apply find_by_name_or_create_post].
  destruct (find _ (students s)) as [row |] eqn:F;
    [| apply find_by_name_or_create_post].
  cbn [fst snd with_students students].
  apply find_elem_of in F as [F1 _]. split; [| split].
  - exists (update_name_grade (Py.strip name) grade (s_id row) row).
    split; [apply list_elem_of_fmap; eauto |].
    unfold update_name_grade. rewrite Z.eqb_refl. split; reflexivity.
  - intros i r L. rewrite list_lookup_fmap, L. cbn [fmap option_fmap option_map].
    eexists. split; [reflexivity |]. unfold update_name_grade.
    destruct (s_id r =? s_id row) eqn:Q; cbn; repeat split; try reflexivity.
    intros NE. apply Z.eqb_eq in Q. congruence.
  - rewrite length_fmap. lia.
Qed.

(** ** Which requests a booking affects *)

(** [api_check_slot] reads the database through [is_slot_taken] only, for
    the date and the sport it was sent. *)
Lemma api_check_slot_ext d pf sp s s' :
  (forall date n sp', d = Some date -> sp = Some sp' ->
     is_slot_taken date n sp' s' = is_slot_taken date n sp' s) ->
  api_check_slot d pf sp s' = api_check_slot d pf sp s.
Proof.
  intros H. unfold api_check_slot.
  destruct d as [date |]; [| reflexivity].
  destruct pf as [pf |]; [| reflexivity].
  destruct sp as [sp |]; [| reflexivity].
  destruct (negb _); [reflexivity |].
  destruct (Py.strptime_ymd date) as [bdate |]; [| reflexivity].
  destruct (find_period (get_day_periods bdate) pf) as [[p |] |];
    [| reflexivity | reflexivity].
  destruct (negb (bookable p)); [reflexivity |].
  destruct (Py.int pf) as [n |]; [| reflexivity].
  rewrite (H date n sp eq_refl eq_refl). reflexivity.
Qed.

Lemma is_slot_taken_bookings date n sp s s' :
  bookings s' = bookings s -> is_slot_taken date n sp s' = is_slot_taken date n sp s.
Proof. unfold is_slot_taken. intros ->. reflexivity. Qed.

(** X15. A slot is the date as text, the period number and the sport. A
    form that is sent changes the answer of [api_check_slot] only for
    requests with the same date text and the same sport: for any other
    date text, also one that writes the same day differently, and for any
    other sport, the answer is what it was. *)
Theorem booking_affects_its_own_slot_only (e : env) (f : booking_form) (s : db)
    (d pf sp : option string) :
  d <> f_booking_date f \/ sp <> f_sport f ->
  api_check_slot d pf sp (fst (submit_booking e f s)) = api_check_slot d pf sp s.
Proof.
  intros NE. apply api_check_slot_ext. intros date2 n sp2 -> ->.
  destruct (submit_booking_cases e f s)
    as [-> | (date & pf1 & sp1 & name & bdate & p & Fd & _ & Fs & _
              & _ & _ & _ & _ & ->)]; [reflexivity |].
  pose proof (find_or_create_student_frame name
                (Some (Py.lower (Py.strip (default "" (f_email f)))))
                (normalize_grade_input (default "" (f_grade f))) s)
    as (B & _ & _). cbv zeta in B.
  rewrite create_booking_fst.
  destruct (unique_violation _ _ _ _).
  - apply is_slot_taken_bookings, B.
  - unfold is_slot_taken. cbn [bookings with_bookings].
    rewrite B, filter_app, filter_cons_False, filter_nil, app_nil_r;
      [reflexivity |].
    intros Q. apply same_slot_spec in Q. unfold slot_of in Q. cbn in Q.
    injection Q as Q1 _ Q3. rewrite Fd, Fs in NE.
    destruct NE as [NE | NE]; apply NE; congruence.
Qed.

(** Monday 2024-01-01: period 2 is booked for football under the text
    "2024-01-01"; asked with the text "2024-1-1", which reads as the same
    day, the check still answers [ok]. *)
Lemma booking_affects_its_own_slot_only_witness :
  let e := mk_env "2024-01-01T08:00:00" None in
  let f := mk_form (Some "2024-01-01") (Some "2") (Some "Football")
                   (Some "Ann") None None None in
  Py.strptime_ymd "2024-1-1" = Py.strptime_ymd "2024-01-01" /\
  api_check_slot (Some "2024-01-01") (Some "2") (Some "Football")
    (fst (submit_booking e f initial_db))
  = jsonify false (Some "slot already taken") /\
  api_check_slot (Some "2024-1-1") (Some "2") (Some "Football")
    (fst (submit_booking e f initial_db))
  = api_check_slot (Some "2024-1-1") (Some "2") (Some "Football") initial_db /\
  api_check_slot (Some "2024-1-1") (Some "2") (Some "Football") initial_db
  = jsonify true None.
Proof.
  cbv zeta. split; [reflexivity |]. split; [reflexivity |]. split.
  - apply booking_affects_its_own_slot_only. left. discriminate.
  - reflexivity.
Defined.

(** ** The message of a successful booking *)

Lemma find_id_some (sid : Z) (rows : list student) :
  sid ∈ s_id <$> rows -> exists r, find (fun x => s_id x =? sid) rows = Some r.
Proof.
  induction rows as [| a rows IH]; intros H; [inversion H |].
  rewrite fmap_cons in H. cbn [find].
  destruct (s_id a =? sid) eqn:E; [eauto |].
  apply elem_of_cons in H as [H | H]; [apply Z.eqb_neq in E; congruence |].
  exact (IH H).
Qed.

(** C6. The message of a successful booking. "Has crossed the threshold" is
    read as the code compares: black points >= threshold. When
    [submit_booking] answers with the success page, one booking has been
    stored, led by the student the form resolves to. The threshold is the
    number written in the [settings] row of key [blackpoint_threshold], and
    3 when there is no such row; the black points are those of the row of
    [students] with the leader's number (the only such row when the ids are
    unique), which are the black points that student had before the
    booking, and 0 for a student created by it. The page carries the text
    "Booked successfully. You have been flagged: please see the supervisor
    in person." when the black points have reached the threshold, and
    "Booked successfully. See you at the court!" when they have not. *)
Theorem black_point_message (e : env) (f : booking_form) (s s' : db)
    (msg : string) :
  submit_booking e f s = (s', render_success msg) ->
  exists (row : booking) (r : student) (threshold : Z),
    bookings s' = bookings s ++ [row] /\
    leader_student_id row = leader_of f s /\
    find (fun x => s_id x =? leader_student_id row) (students s') = Some r /\
    (db_ok s ->
     forall r', r' ∈ students s' -> s_id r' = leader_student_id row -> r' = r) /\
    (forall r0,
       find (fun x => s_id x =? leader_student_id row) (students s) = Some r0 ->
       black_points r = black_points r0) /\
    (find (fun x => s_id x =? leader_student_id row) (students s) = None ->
     black_points r = 0) /\
    match settings s !! "blackpoint_threshold" with
    | Some v => Py.int v = Some threshold
    | None => threshold = 3
    end /\
    (threshold <= black_points r ->
       msg = "Booked successfully. You have been flagged: please see the supervisor in person.") /\
    (black_points r < threshold ->
       msg = "Booked successfully. See you at the court!").
Proof.
  intros Hsub.
  assert (OK' : db_ok s -> db_ok s').
  { intros OK. pose proof (db_ok_run (Submit_booking e f) s OK) as Q.
    cbn [run] in Q. rewrite Hsub in Q. exact Q. }
  unfold submit_booking in Hsub.
  destruct (f_booking_date f) as [date |]; [| discriminate].
  destruct (f_period f) as [pf |]; [| discriminate].
  destruct (f_sport f) as [sp |]; [| discriminate].
  destruct (f_name f) as [name |] eqn:Hname; [| discriminate].
  destruct (negb _); [discriminate |].
  destruct (Py.strptime_ymd date) as [d |]; [| discriminate].
  destruct (find_period (get_day_periods d) pf) as [[p |] |]; [| discriminate ..].
  destruct (negb (bookable p)); [discriminate |].
  destruct (ENFORCE_SCHOOL_EMAIL && _ && _); [discriminate |].
  set (email := Py.lower (Py.strip (default "" (f_email f)))) in *.
  set (grade := normalize_grade_input (default "" (f_grade f))) in *.
  assert (Hleader : leader_of f s
                    = snd (find_or_create_student name (Some email) grade s)).
  { unfold leader_of. rewrite Hname. reflexivity. }
  pose proof (find_or_create_student_change name (Some email) grade s) as Q.
  pose proof (find_or_create_student_frame name (Some email) grade s)
    as (F1 & F2 & F3).
  pose proof (find_or_create_student_id name (Some email) grade s) as K.
  destruct (find_or_create_student name (Some email) grade s) as [s1 leader].
  cbn [fst snd] in *. rewrite Hleader.
  destruct (Py.int pf) as [n |]; [| discriminate].
  pose proof (create_booking_frame e date n sp leader
                (default "" (f_others f)) s1) as (G1 & G2 & G3).
  pose proof (create_booking_success e date n sp leader
                (default "" (f_others f)) s1) as Hrow.
  destruct (create_booking e date n sp leader (default "" (f_others f)) s1)
    as [s2 [success err]].
  cbn [fst snd] in *.
  destruct success;
    [| destruct (bool_decide (err = Some "slot_taken")); discriminate].
  specialize (Hrow s2 err eq_refl).
  assert (B : leader_black_points leader s2 = leader_black_points leader s).
  { rewrite (leader_black_points_students s1 s2 leader G1).
    apply leader_black_points_quiet, Q. }
  destruct (blackpoint_threshold s2) as [threshold |] eqn:T; [| discriminate].
  assert (Hs' : s' = s2 /\
                msg = if threshold <=? leader_black_points leader s2
                      then MSG_SUPERVISOR else MSG_BOOKED).
  { destruct (threshold <=? leader_black_points leader s2);
      split; congruence. }
  destruct Hs' as [-> Hmsg]. clear Hsub.
  destruct (find_id_some leader (students s2)) as [r Fr];
    [rewrite G1; exact K |].
  unfold leader_black_points in B, Hmsg. rewrite Fr in B, Hmsg.
  exists (mk_booking (bookings_seq s1 + 1) date n sp leader
            (default "" (f_others f)) (utcnow e)), r, threshold.
  cbn [leader_student_id].
  split; [rewrite Hrow, F1; reflexivity |].
  split; [reflexivity |]. split; [exact Fr |]. split.
  { intros OK r' Hr' E. apply find_elem_of in Fr as [Hr Er].
    apply Z.eqb_eq in Er.
    apply (fmap_key_inj s_id (students s2));
      [apply (OK' OK) | exact Hr' | exact Hr | congruence]. }
  split; [intros r0 F0; rewrite F0 in B; exact B |].
  split; [intros F0; rewrite F0 in B; exact B |].
  split.
  { unfold blackpoint_threshold, get_setting in T. rewrite G3, F3 in T.
    destruct (settings s !! "blackpoint_threshold") as [v |];
      [exact T | injection T as <-; reflexivity]. }
  rewrite Hmsg.
  destruct (threshold <=? black_points r) eqn:Cmp.
  - apply Z.leb_le in Cmp. split; [reflexivity | lia].
  - apply Z.leb_gt in Cmp. split; [lia | reflexivity].
Qed.

(** Ann has been flagged three times and the threshold has been set to 3
    through the settings form. *)
Lemma black_point_message_witness :
  let e := mk_env "2024-01-01T08:00:00" None in
  let f := mk_form (Some "2024-01-01") (Some "2") (Some "Football")
                   (Some "Ann") None None None in
  let s := run_all [Find_or_create_student "Ann" None None;
                    Admin_redflag true 1; Admin_redflag true 1;
                    Admin_redflag true 1;
                    Admin_settings true (Some "3")] initial_db in
  let s' := fst (submit_booking e f s) in
  let msg := "Booked successfully. You have been flagged: please see the supervisor in person." in
  exists (row : booking) (r : student) (threshold : Z),
    bookings s' = bookings s ++ [row] /\
    leader_student_id row = leader_of f s /\
    find (fun x => s_id x =? leader_student_id row) (students s') = Some r /\
    (db_ok s ->
     forall r', r' ∈ students s' -> s_id r' = leader_student_id row -> r' = r) /\
    (forall r0,
       find (fun x => s_id x =? leader_student_id row) (students s) = Some r0 ->
       black_points r = black_points r0) /\
    (find (fun x => s_id x =? leader_student_id row) (students s) = None ->
     black_points r = 0) /\
    match settings s !! "blackpoint_threshold" with
    | Some v => Py.int v = Some threshold
    | None => threshold = 3
    end /\
    (threshold <= black_points r ->
       msg = "Booked successfully. You have been flagged: please see the supervisor in person.") /\
    (black_points r < threshold ->
       msg = "Booked successfully. See you at the court!").
Proof.
  cbv zeta.
  apply (black_point_message (mk_env "2024-01-01T08:00:00" None)
           (mk_form (Some "2024-01-01") (Some "2") (Some "Football")
                    (Some "Ann") None None None)).
  vm_compute. reflexivity.
Defined.
